(** * fire-enrich: the unified enrichment view

    A shallow embedding of [src/app/fire-enrich/unified-enrichment-view.tsx]:
    the component's view state, its event handlers as state transformers
    that also return the effects they perform (toasts, the outbound request,
    the [onStartEnrichment] callback), and the properties of the field
    selection wizard.

    A string stands for a JavaScript string through its UTF-8 encoding, so
    [===], [split("@")] and [includes] act on bytes as they act on code
    units.  [trim] removes the white space of ECMAScript in its UTF-8 form.
    [toLowerCase] follows the case tables of the host's Unicode version;
    it is a parameter, of which only its action on ASCII strings is ever
    assumed. *)

From stdpp Require Import base decidable option numbers list strings gmap stringmap.
From Stdlib Require Import Ascii String QArith Qcanon.

Local Open Scope string_scope.
Local Open Scope list_scope.

(** ** JavaScript string primitives used by the component *)

Module Js.

(** [s === t] on strings. *)
Definition strictEq (s t : string) : bool := String.eqb s t.

(** Truthiness of a string: only the empty string is falsy. *)
Definition truthyStr (s : string) : bool := negb (strictEq s "").

Definition isUpper (c : ascii) : bool :=
  let n := nat_of_ascii c in (65 <=? n)%nat && (n <=? 90)%nat.

Definition lowerChar (c : ascii) : ascii :=
  if isUpper c then ascii_of_nat (nat_of_ascii c + 32) else c.

(** Lowercasing of a string of ASCII characters: what every host's
    [String.prototype.toLowerCase] does on such a string. *)
Fixpoint asciiLowerCase (s : string) : string :=
  match s with
  | EmptyString => EmptyString
  | String c s' => String (lowerChar c) (asciiLowerCase s')
  end.

(** All bytes below 128: the string has ASCII characters only. *)
Fixpoint isAscii (s : string) : bool :=
  match s with
  | EmptyString => true
  | String c s' => (nat_of_ascii c <? 128)%nat && isAscii s'
  end.

(** The white space [trim] removes is WhiteSpace and LineTerminator of
    ECMAScript: U+0009..U+000D and U+0020 (one byte each in UTF-8), U+00A0
    (two bytes), U+1680, U+2000..U+200A, U+2028, U+2029, U+202F, U+205F,
    U+3000 and U+FEFF (three bytes each). *)
Definition isWhiteSpace (c : ascii) : bool :=
  let n := nat_of_ascii c in
  ((9 <=? n)%nat && (n <=? 13)%nat) || (n =? 32)%nat.

Definition isWhiteSpace2 (a b : ascii) : bool :=
  (nat_of_ascii a =? 194)%nat && (nat_of_ascii b =? 160)%nat.

Definition isWhiteSpace3 (a b c : ascii) : bool :=
  let x := nat_of_ascii a in
  let y := nat_of_ascii b in
  let z := nat_of_ascii c in
  ((x =? 225) && (y =? 154) && (z =? 128))%nat
  || ((x =? 226) && (y =? 128)
      && (((128 <=? z) && (z <=? 138)) || (z =? 168) || (z =? 169) || (z =? 175)))%nat
  || ((x =? 226) && (y =? 129) && (z =? 159))%nat
  || ((x =? 227) && (y =? 128) && (z =? 128))%nat
  || ((x =? 239) && (y =? 187) && (z =? 191))%nat.

(** Remove the leading characters that [w1], [w2], [w3] recognise as
    white space of one, two and three bytes. *)
Fixpoint trimLeading (w1 : ascii -> bool) (w2 : ascii -> ascii -> bool)
    (w3 : ascii -> ascii -> ascii -> bool) (s : string) : string :=
  match s with
  | EmptyString => EmptyString
  | String a s1 =>
      if w1 a then trimLeading w1 w2 w3 s1
      else match s1 with
           | String b s2 =>
               if w2 a b then trimLeading w1 w2 w3 s2
               else match s2 with
                    | String c s3 =>
                        if w3 a b c then trimLeading w1 w2 w3 s3 else s
                    | EmptyString => s
                    end
           | EmptyString => s
           end
  end.

Definition trimStart (s : string) : string :=
  trimLeading isWhiteSpace isWhiteSpace2 isWhiteSpace3 s.

Fixpoint revString (s acc : string) : string :=
  match s with
  | EmptyString => acc
  | String c s' => revString s' (String c acc)
  end.

(** From the end the bytes of a character come in reverse order. *)
Definition trimEnd (s : string) : string :=
  revString
    (trimLeading isWhiteSpace (fun a b => isWhiteSpace2 b a)
       (fun a b c => isWhiteSpace3 c b a) (revString s ""))
    "".

(** [String.prototype.trim]. *)
Definition trim (s : string) : string := trimEnd (trimStart s).

(** The property names every plain object inherits from
    [Object.prototype]: read from a row that has no cell of that name they
    give a function (or, for [__proto__], the prototype), not [undefined]. *)
Definition objectPrototypeKeys : list string :=
  [ "constructor"; "__proto__"; "hasOwnProperty"; "isPrototypeOf";
    "propertyIsEnumerable"; "toLocaleString"; "toString"; "valueOf";
    "__defineGetter__"; "__defineSetter__"; "__lookupGetter__";
    "__lookupSetter__" ].

(** [s.split(sep)] for a one-character separator: the pieces between the
    occurrences of [sep]; never the empty array. *)
Fixpoint split (sep : ascii) (s : string) : list string :=
  match s with
  | EmptyString => [EmptyString]
  | String c s' =>
      if Ascii.eqb c sep then EmptyString :: split sep s'
      else match split sep s' with
           | piece :: pieces => String c piece :: pieces
           | [] => [String c EmptyString]
           end
  end.

(** [s.includes(c)] for a character: used to state what [split] returns. *)
Fixpoint containsChar (c : ascii) (s : string) : bool :=
  match s with
  | EmptyString => false
  | String c' s' => Ascii.eqb c' c || containsChar c s'
  end.

(** [xs.includes(x)] on an array of strings. *)
Definition includes (xs : list string) (x : string) : bool :=
  List.existsb (strictEq x) xs.

(** [xs.filter((_, i) => p(i))]: keep the elements whose index passes. *)
Fixpoint filterIndexFrom {A} (p : nat -> bool) (i : nat) (xs : list A) : list A :=
  match xs with
  | [] => []
  | x :: xs' =>
      if p i then x :: filterIndexFrom p (S i) xs'
      else filterIndexFrom p (S i) xs'
  end.

Definition filterIndex {A} (p : nat -> bool) (xs : list A) : list A :=
  filterIndexFrom p 0 xs.

End Js.

(** ** Data model ([@/lib/types]) *)

(** [CSVRow]: a mapping from column name to cell text. *)
Abbreviation CSVRow := (gmap string string).

(** What [row[col]] gives.  The rows are taken to be plain objects: a row
    that has a cell of that name gives the cell; one that has none gives
    [undefined], unless [col] names a property of [Object.prototype], in
    which case it gives that inherited value, which is not a string. *)
Inductive PropertyRead : Type :=
| OwnCell (value : string)
| InheritedValue
| NoValue.

Definition readCell (row : CSVRow) (col : string) : PropertyRead :=
  match row !! col with
  | Some value => OwnCell value
  | None =>
      if Js.includes Js.objectPrototypeKeys col then InheritedValue else NoValue
  end.

(** What is assumed of the host's [toLowerCase], where anything is: on a
    string of ASCII characters it is ASCII lowercasing. *)
Definition lowersAscii (toLowerCase : string -> string) : Prop :=
  forall s, Js.isAscii s = true -> toLowerCase s = Js.asciiLowerCase s.

(** [EnrichmentField].  The declared type of [type] is the union
    ["string" | "number" | "boolean" | "array"]; at run time it is whatever
    string the unchecked cast in [handleGenerateFields] lets through, so it
    is kept as a string. *)
Record EnrichmentField : Type := mkField {
  name : string;
  displayName : string;
  description : string;
  type : string;
  required : bool;
}.

(** The manual-entry form ([customField]). *)
Record CustomField : Type := mkCustom {
  customName : string;
  customDescription : string;
  customType : string;
}.

(** A descriptor of the generate-fields response, as the arrow function in
    [handleGenerateFields] annotates its parameter. *)
Record FieldDescriptor : Type := mkDescriptor {
  apiDisplayName : string;
  apiDescription : string;
  apiType : string;
}.

(** The result of the external [detectEmailColumn]; [columnName] is
    [string | null]. *)
Record Detection : Type := mkDetection {
  columnName : option string;
  confidence : Qc;
}.

Inductive WizardStep : Type := Step1 | Step2.

Definition PRESET_FIELDS : list EnrichmentField :=
  [ mkField "companyName" "Company Name" "The name of the company" "string" false;
    mkField "companyDescription" "Company Description"
            "A brief description of what the company does" "string" false;
    mkField "industry" "Industry"
            "The primary industry the company operates in" "string" false;
    mkField "employeeCount" "Employee Count"
            "The number of employees at the company" "number" false;
    mkField "yearFounded" "Year Founded"
            "The year the company was founded" "number" false;
    mkField "headquarters" "Headquarters"
            "The location of the company headquarters" "string" false;
    mkField "fundingRaised" "Funding Raised"
            "Total funding raised by the company" "string" false;
    mkField "fundingStage" "Funding Stage"
            "The current funding stage (e.g., Pre-seed, Seed, Series A, Series B, Series C, Series D+, IPO)"
            "string" false ].

(** [fields.find((f) => f.name === n)]. *)
Definition findByName (n : string) (fields : list EnrichmentField)
  : option EnrichmentField :=
  List.find (fun f => Js.strictEq (name f) n) fields.

(** [fields.map((f) => f.name)]. *)
Definition names (fields : list EnrichmentField) : list string :=
  List.map name fields.

(** ** JSON values, as [response.json()] hands them to the handler

    The elements of an array are typed as the handler's arrow function
    annotates them; everything around them is an untyped JavaScript value,
    tested by the handler for truthiness only.  Numbers are integers here. *)

#[warnings="-register-all"]
Inductive JsValue : Type :=
| JsUndefined
| JsNull
| JsBool (b : bool)
| JsNumber (z : Z)
| JsString (s : string)
| JsDescriptors (elements : list FieldDescriptor)
| JsObject (props : list (string * JsValue)).

(** What a [try] block computes: a value, or a thrown error. *)
Inductive Try (A : Type) : Type :=
| Returned (a : A)
| Thrown (message : string).
Arguments Returned {A} a.
Arguments Thrown {A} message.

Definition tryBind {A B} (m : Try A) (k : A -> Try B) : Try B :=
  match m with
  | Returned a => k a
  | Thrown e => Thrown e
  end.

Notation "x <- m ;;; k" := (tryBind m (fun x => k))
  (at level 100, m at next level, right associativity).

Module JsValues.

(** Truthiness: [undefined], [null], [false], [0] and the empty string are
    falsy; arrays and objects are truthy. *)
Definition truthy (v : JsValue) : bool :=
  match v with
  | JsUndefined | JsNull => false
  | JsBool b => b
  | JsNumber z => negb (z =? 0)%Z
  | JsString s => Js.truthyStr s
  | JsDescriptors _ | JsObject _ => true
  end.

Fixpoint lookupProp (key : string) (props : list (string * JsValue)) : JsValue :=
  match props with
  | [] => JsUndefined
  | (k, v) :: rest => if Js.strictEq k key then v else lookupProp key rest
  end.

(** [v.key] for the keys the handler reads ([success], [data], [fields]),
    which no primitive and no array has: reading them from [undefined] or
    [null] throws, from an object looks the key up, from anything else
    gives [undefined]. *)
Definition getProp (v : JsValue) (key : string) : Try JsValue :=
  match v with
  | JsUndefined | JsNull => Thrown "TypeError: cannot read properties"
  | JsObject props => Returned (lookupProp key props)
  | _ => Returned JsUndefined
  end.

(** [v.map(f)]: only an array has a callable [map]. *)
Definition arrayMap {B} (f : FieldDescriptor -> B) (v : JsValue) : Try (list B) :=
  match v with
  | JsDescriptors elements => Returned (List.map f elements)
  | _ => Thrown "TypeError: map is not a function"
  end.

End JsValues.

(** The ways [await fetch(...)] followed by [await response.json()] can end:
    the request is rejected, or it resolves with [response.ok] and a body
    that parses as JSON ([Some]) or does not ([None]). *)
Inductive FetchOutcome : Type :=
| FetchRejected
| FetchResolved (ok : bool) (body : option JsValue).

(** Two readings of "a payload of the expected shape", to compare with what
    the handler accepts.  [literalShape] follows the spec's words: an
    object whose [success] is [true] and whose [data.fields] is an array.
    [truthyShape] asks of [success] only that it be truthy. *)
Definition fieldsOf (data : JsValue) : option (list FieldDescriptor) :=
  match data with
  | JsObject dataProps =>
      match JsValues.lookupProp "fields" dataProps with
      | JsDescriptors elements => Some elements
      | _ => None
      end
  | _ => None
  end.

Definition literalShape (outcome : FetchOutcome) : option (list FieldDescriptor) :=
  match outcome with
  | FetchResolved true (Some (JsObject props)) =>
      match JsValues.lookupProp "success" props with
      | JsBool true => fieldsOf (JsValues.lookupProp "data" props)
      | _ => None
      end
  | _ => None
  end.

Definition truthyShape (outcome : FetchOutcome) : option (list FieldDescriptor) :=
  match outcome with
  | FetchResolved true (Some (JsObject props)) =>
      if JsValues.truthy (JsValues.lookupProp "success" props)
      then fieldsOf (JsValues.lookupProp "data" props)
      else None
  | _ => None
  end.

(** ** Effects and view state *)

(** How [await navigator.clipboard.writeText(...)] can end: the text is
    written, the write is rejected, or there is no clipboard to call. *)
Inductive ClipboardOutcome : Type :=
| ClipboardWritten
| ClipboardRejected
| ClipboardUnavailable.

(** What a handler does outside the state.  [ClipboardWrite] is the call of
    [navigator.clipboard.writeText], whether or not the write succeeds. *)
Inductive Effect : Type :=
| ToastError (message : string)
| ToastSuccess (message : string)
| ConsoleError (message : string)
| FetchGenerateFields (prompt : string)
| ClipboardWrite (text : string)
| OnStartEnrichment (emailColumn : string) (fields : list EnrichmentField).

(** The [useState] cells of the component.  [pendingRequest] is not a cell:
    it holds the [selectedFields] that the suspended [handleGenerateFields]
    closed over, while its request is in flight. *)
Record State : Type := mkState {
  step : WizardStep;
  emailColumn : string;
  selectedFields : list EnrichmentField;
  showManualAdd : bool;
  showNaturalLanguage : bool;
  naturalLanguageInput : string;
  suggestedFields : list EnrichmentField;
  isGenerating : bool;
  showAllRows : bool;
  showEmailDropdown : bool;
  showEmailDropdownStep1 : bool;
  customField : CustomField;
  pendingRequest : option (list EnrichmentField);
}.

(** A handler runs against the current state and returns the next state and
    the effects it performed, in order. *)
Definition Handler : Type := State -> State * list Effect.

Definition skip : Handler := fun s => (s, []).

Definition perform (e : Effect) : Handler := fun s => (s, [e]).

Definition andThen (h1 h2 : Handler) : Handler :=
  fun s => let '(s1, out1) := h1 s in
           let '(s2, out2) := h2 s1 in
           (s2, out1 ++ out2).

Notation "h1 >> h2" := (andThen h1 h2) (at level 61, left associativity).

Definition toast_error (message : string) : Handler := perform (ToastError message).
Definition toast_success (message : string) : Handler := perform (ToastSuccess message).
Definition console_error (message : string) : Handler := perform (ConsoleError message).

Definition setStep (v : WizardStep) : Handler := fun s =>
  (mkState v (emailColumn s) (selectedFields s) (showManualAdd s)
     (showNaturalLanguage s) (naturalLanguageInput s) (suggestedFields s)
     (isGenerating s) (showAllRows s) (showEmailDropdown s)
     (showEmailDropdownStep1 s) (customField s) (pendingRequest s), []).

Definition setEmailColumn (v : string) : Handler := fun s =>
  (mkState (step s) v (selectedFields s) (showManualAdd s)
     (showNaturalLanguage s) (naturalLanguageInput s) (suggestedFields s)
     (isGenerating s) (showAllRows s) (showEmailDropdown s)
     (showEmailDropdownStep1 s) (customField s) (pendingRequest s), []).

Definition setSelectedFields (v : list EnrichmentField) : Handler := fun s =>
  (mkState (step s) (emailColumn s) v (showManualAdd s)
     (showNaturalLanguage s) (naturalLanguageInput s) (suggestedFields s)
     (isGenerating s) (showAllRows s) (showEmailDropdown s)
     (showEmailDropdownStep1 s) (customField s) (pendingRequest s), []).

Definition setShowManualAdd (v : bool) : Handler := fun s =>
  (mkState (step s) (emailColumn s) (selectedFields s) v
     (showNaturalLanguage s) (naturalLanguageInput s) (suggestedFields s)
     (isGenerating s) (showAllRows s) (showEmailDropdown s)
     (showEmailDropdownStep1 s) (customField s) (pendingRequest s), []).

Definition setShowNaturalLanguage (v : bool) : Handler := fun s =>
  (mkState (step s) (emailColumn s) (selectedFields s) (showManualAdd s)
     v (naturalLanguageInput s) (suggestedFields s)
     (isGenerating s) (showAllRows s) (showEmailDropdown s)
     (showEmailDropdownStep1 s) (customField s) (pendingRequest s), []).

Definition setNaturalLanguageInput (v : string) : Handler := fun s =>
  (mkState (step s) (emailColumn s) (selectedFields s) (showManualAdd s)
     (showNaturalLanguage s) v (suggestedFields s)
     (isGenerating s) (showAllRows s) (showEmailDropdown s)
     (showEmailDropdownStep1 s) (customField s) (pendingRequest s), []).

Definition setSuggestedFields (v : list EnrichmentField) : Handler := fun s =>
  (mkState (step s) (emailColumn s) (selectedFields s) (showManualAdd s)
     (showNaturalLanguage s) (naturalLanguageInput s) v
     (isGenerating s) (showAllRows s) (showEmailDropdown s)
     (showEmailDropdownStep1 s) (customField s) (pendingRequest s), []).

Definition setIsGenerating (v : bool) : Handler := fun s =>
  (mkState (step s) (emailColumn s) (selectedFields s) (showManualAdd s)
     (showNaturalLanguage s) (naturalLanguageInput s) (suggestedFields s)
     v (showAllRows s) (showEmailDropdown s)
     (showEmailDropdownStep1 s) (customField s) (pendingRequest s), []).

Definition setShowAllRows (v : bool) : Handler := fun s =>
  (mkState (step s) (emailColumn s) (selectedFields s) (showManualAdd s)
     (showNaturalLanguage s) (naturalLanguageInput s) (suggestedFields s)
     (isGenerating s) v (showEmailDropdown s)
     (showEmailDropdownStep1 s) (customField s) (pendingRequest s), []).

Definition setShowEmailDropdown (v : bool) : Handler := fun s =>
  (mkState (step s) (emailColumn s) (selectedFields s) (showManualAdd s)
     (showNaturalLanguage s) (naturalLanguageInput s) (suggestedFields s)
     (isGenerating s) (showAllRows s) v
     (showEmailDropdownStep1 s) (customField s) (pendingRequest s), []).

Definition setShowEmailDropdownStep1 (v : bool) : Handler := fun s =>
  (mkState (step s) (emailColumn s) (selectedFields s) (showManualAdd s)
     (showNaturalLanguage s) (naturalLanguageInput s) (suggestedFields s)
     (isGenerating s) (showAllRows s) (showEmailDropdown s)
     v (customField s) (pendingRequest s), []).

Definition setCustomField (v : CustomField) : Handler := fun s =>
  (mkState (step s) (emailColumn s) (selectedFields s) (showManualAdd s)
     (showNaturalLanguage s) (naturalLanguageInput s) (suggestedFields s)
     (isGenerating s) (showAllRows s) (showEmailDropdown s)
     (showEmailDropdownStep1 s) v (pendingRequest s), []).

Definition setPendingRequest (v : option (list EnrichmentField)) : Handler := fun s =>
  (mkState (step s) (emailColumn s) (selectedFields s) (showManualAdd s)
     (showNaturalLanguage s) (naturalLanguageInput s) (suggestedFields s)
     (isGenerating s) (showAllRows s) (showEmailDropdown s)
     (showEmailDropdownStep1 s) (customField s) v, []).

(** The three default fields: [PRESET_FIELDS.find((f) => f.name === n)!]
    for each of the three names ([initial_finds_succeed] below shows that
    every lookup succeeds, so the non-null assertions hold). *)
Definition defaultSelectedFields : list EnrichmentField :=
  omap (fun n => findByName n PRESET_FIELDS)
       ["companyName"; "companyDescription"; "industry"].

Definition initialState : State :=
  {| step := Step1;
     emailColumn := "";
     selectedFields := defaultSelectedFields;
     showManualAdd := false;
     showNaturalLanguage := false;
     naturalLanguageInput := "";
     suggestedFields := [];
     isGenerating := false;
     showAllRows := false;
     showEmailDropdown := false;
     showEmailDropdownStep1 := false;
     customField := mkCustom "" "" "string";
     pendingRequest := None |}.

(** ** Invariant of the selected fields *)

(** How one event may change the selected fields: not at all, by removing
    the fields of one name, or by appending one new name below the cap. *)
Inductive fieldsStep (l : list EnrichmentField) : list EnrichmentField -> Prop :=
| fieldsStep_same : fieldsStep l l
| fieldsStep_remove (n : string) :
    fieldsStep l (List.filter (fun f => negb (Js.strictEq (name f) n)) l)
| fieldsStep_add (f : EnrichmentField) :
    (List.length l < 10)%nat -> name f ∉ names l -> fieldsStep l (l ++ [f]).

(** The invariant of the selected-fields list. *)
Definition wellFormed (l : list EnrichmentField) : Prop :=
  (List.length l <= 10)%nat /\ NoDup (names l).

(** Handlers that leave the selected fields alone. *)
Definition keepsSelected (h : Handler) : Prop :=
  forall s, selectedFields (h s).1 = selectedFields s.

(** ** The name-generation helper

    Modelled from the spec: [generateVariableName] of
    [@/lib/utils/field-utils] is imported by the component but is not among
    the sources.  The spec only says that it turns a display name into a
    machine identifier "guaranteed not to collide with existing field
    names"; this instance takes the display name itself when it is free and
    otherwise the first free name obtained by appending a counter.  The
    component is verified for an arbitrary helper (a section variable);
    this instance is used to exercise the theorems on concrete inputs. *)
Definition generateVariableName_spec (display : string) (existing : list string) : string :=
  fresh_string_of_set display (list_to_set existing).

(** What the spec guarantees about the helper. *)
Definition neverCollides (generate : string -> list string -> string) : Prop :=
  forall display existing, generate display existing ∉ existing.

(** ** The component *)

Inductive Event : Type :=
| PropsEffect
| ChooseEmailColumn (value : string)
| ClickChange
| ClickNext
| ClickBack
| ClickPreset (index : nat)
| ToggleNaturalLanguage
| TypePrompt (text : string)
| ClickGenerate
| RequestSettled (outcome : FetchOutcome)
| ToggleManualAdd
| TypeCustomName (text : string)
| TypeCustomDescription (text : string)
| PickCustomType (value : string)
| ClickAddField
| ClickAccept (idx : nat)
| ClickReject (idx : nat)
| ClickShowMoreRows
| ClickShowLess
| ClickCopy (rowIdx : nat) (clipboard : ClipboardOutcome)
| ClickStartEnrichment.

Definition commonDomains : list string :=
  ["gmail.com"; "yahoo.com"; "hotmail.com"; "outlook.com"; "aol.com"; "icloud.com"].

(** The predicate of [rows.filter(...)] in the skip-list warning.  An
    inherited value has no [toLowerCase]: calling it throws. *)
Definition isSkippable (toLowerCase : string -> string)
    (emailColumn : string) (row : CSVRow) : Try bool :=
  match readCell row emailColumn with
  | InheritedValue => Thrown "TypeError: toLowerCase is not a function"
  | NoValue => Returned false
  | OwnCell value =>
      let email := toLowerCase value in
      if negb (Js.truthyStr email) then Returned false
      else match Js.split "@" email !! 1%nat with
           | None => Returned false
           | Some domain =>
               Returned (Js.truthyStr domain && Js.includes commonDomains domain)
           end
  end.

(** [xs.filter(p)] for a predicate that can throw. *)
Fixpoint filterTry {A} (p : A -> Try bool) (xs : list A) : Try (list A) :=
  match xs with
  | [] => Returned []
  | x :: xs' =>
      keep <- p x ;;;
      rest <- filterTry p xs' ;;;
      Returned (if keep then x :: rest else rest)
  end.

(** [const email = cellValue.trim()] of an email cell, with
    [cellValue = row[col] || ""]: an inherited value has no [trim], and the
    render throws. *)
Definition emailOfCell (row : CSVRow) (col : string) : Try string :=
  match readCell row col with
  | OwnCell value => Returned (Js.trim value)
  | NoValue => Returned (Js.trim "")
  | InheritedValue => Thrown "TypeError: trim is not a function"
  end.

Module View.

Section Component.

Variable generateVariableName : string -> list string -> string.
Variable detectEmailColumn : list CSVRow -> list string -> Detection.
Variable toLowerCase : string -> string.
Variable rows : list CSVRow.
Variable columns : list string.

(** Every handler below is a closure over the state [cl] of the render that
    created it: it reads [cl] and writes through the setters. *)

(** The [useEffect] on [rows, columns].  Both props are arrays by their
    declared types, so the [Array.isArray] guard always passes. *)
Definition detectionEffect (cl : State) : Handler :=
  let detection := detectEmailColumn rows columns in
  match columnName detection with
  | Some col =>
      if Js.truthyStr col && bool_decide (Qc_of_Z 50 < confidence detection)%Qc
      then setEmailColumn col
      else skip
  | None => skip
  end.

Definition handleAddField (cl : State) (field : EnrichmentField) : Handler :=
  if (10 <=? List.length (selectedFields cl))%nat then
    toast_error "Maximum 10 fields allowed"
  else
    match findByName (name field) (selectedFields cl) with
    | Some _ => skip
    | None => setSelectedFields (selectedFields cl ++ [field])
    end.

Definition handleRemoveField (cl : State) (fieldName : string) : Handler :=
  setSelectedFields
    (List.filter (fun f => negb (Js.strictEq (name f) fieldName)) (selectedFields cl)).

(** The mapping of one returned descriptor, against the [selectedFields]
    the handler closed over. *)
Definition convertField (selected : list EnrichmentField) (field : FieldDescriptor)
  : EnrichmentField :=
  {| name := generateVariableName (apiDisplayName field) (names selected);
     displayName := apiDisplayName field;
     description := apiDescription field;
     type := if Js.strictEq (apiType field) "text" then "string"
             else if Js.strictEq (apiType field) "array" then "string"
             else apiType field;
     required := false |}.

(** The part of the [try] block of [handleGenerateFields] that can throw:
    from the settled request to the converted fields. *)
Definition convertResponse (selected : list EnrichmentField) (outcome : FetchOutcome)
  : Try (list EnrichmentField) :=
  match outcome with
  | FetchRejected => Thrown "fetch failed"
  | FetchResolved ok body =>
      if negb ok then Thrown "Failed to generate fields"
      else
        result <- match body with
                  | Some v => Returned v
                  | None => Thrown "SyntaxError: not JSON"
                  end ;;;
        success <- JsValues.getProp result "success" ;;;
        test <- (if JsValues.truthy success then
                   data <- JsValues.getProp result "data" ;;;
                   if JsValues.truthy data then JsValues.getProp data "fields"
                   else Returned data
                 else Returned success) ;;;
        if JsValues.truthy test then
          data <- JsValues.getProp result "data" ;;;
          fields <- JsValues.getProp data "fields" ;;;
          JsValues.arrayMap (convertField selected) fields
        else Thrown "Invalid response format"
  end.

(** [handleGenerateFields] up to its first [await]. *)
Definition handleGenerateFields (cl : State) : Handler :=
  if negb (Js.truthyStr (Js.trim (naturalLanguageInput cl))) then skip
  else
    setIsGenerating true >>
    perform (FetchGenerateFields (naturalLanguageInput cl)) >>
    setPendingRequest (Some (selectedFields cl)).

(** [handleGenerateFields] from the settled request on: the rest of the
    [try] block, the [catch] and the [finally]. *)
Definition handleGenerateFields_resume
    (selected : list EnrichmentField) (outcome : FetchOutcome) : Handler :=
  match convertResponse selected outcome with
  | Returned convertedFields =>
      setSuggestedFields convertedFields >>
      setShowNaturalLanguage false >>
      setNaturalLanguageInput ""
  | Thrown _ =>
      console_error "Error generating fields:" >>
      toast_error "Failed to generate fields. Please try again."
  end >>
  setIsGenerating false >>
  setPendingRequest None.

Definition handleAddCustomField (cl : State) : Handler :=
  if negb (Js.truthyStr (customName (customField cl)))
     || negb (Js.truthyStr (customDescription (customField cl)))
  then toast_error "Please fill in all fields"
  else
    let fieldName :=
      generateVariableName (customName (customField cl)) (names (selectedFields cl)) in
    let newField :=
      {| name := fieldName;
         displayName := customName (customField cl);
         description := customDescription (customField cl);
         type := customType (customField cl);
         required := false |} in
    handleAddField cl newField >>
    setCustomField (mkCustom "" "" "string") >>
    setShowManualAdd false.

(** [const displayRows] and [const visibleFields]. *)
Definition displayRows (cl : State) : list CSVRow :=
  if showAllRows cl then rows else take 3 rows.

Definition maxVisibleFields : nat := 5.

Definition visibleFields (cl : State) : list EnrichmentField :=
  drop (List.length (selectedFields cl) - maxVisibleFields) (selectedFields cl).

(** *** The rendered controls and their inline handlers *)

Definition isSelected (cl : State) (field : EnrichmentField) : bool :=
  bool_decide (is_Some (findByName (name field) (selectedFields cl))).

Definition presetDisabled (cl : State) (field : EnrichmentField) : bool :=
  (10 <=? List.length (selectedFields cl))%nat && negb (isSelected cl field).

Definition onPresetClick (cl : State) (field : EnrichmentField) : Handler :=
  if isSelected cl field then handleRemoveField cl (name field)
  else handleAddField cl field.

Definition withoutIndex (idx : nat) (fields : list EnrichmentField)
  : list EnrichmentField :=
  Js.filterIndex (fun i => negb (i =? idx)%nat) fields.

Definition onAcceptClick (cl : State) (idx : nat) (field : EnrichmentField) : Handler :=
  handleAddField cl field >>
  setSuggestedFields (withoutIndex idx (suggestedFields cl)).

Definition onRejectClick (cl : State) (idx : nat) : Handler :=
  setSuggestedFields (withoutIndex idx (suggestedFields cl)).

Definition nextDisabled (cl : State) : bool :=
  negb (Js.truthyStr (emailColumn cl)).

Definition generateDisabled (cl : State) : bool :=
  negb (Js.truthyStr (Js.trim (naturalLanguageInput cl))) || isGenerating cl.

Definition addFieldDisabled (cl : State) : bool :=
  negb (Js.truthyStr (customName (customField cl)))
  || negb (Js.truthyStr (customDescription (customField cl))).

Definition startEnrichmentDisabled (cl : State) : bool :=
  (List.length (selectedFields cl) =? 0)%nat.

Definition onStartEnrichmentClick (cl : State) : Handler :=
  perform (OnStartEnrichment (emailColumn cl) (selectedFields cl)).

Definition onEmailColumnChange (cl : State) (value : string) : Handler :=
  match step cl with
  | Step1 =>
      if Js.truthyStr (emailColumn cl)
      then setEmailColumn value >> setShowEmailDropdownStep1 false
      else setEmailColumn value
  | Step2 => setEmailColumn value >> setShowEmailDropdown false
  end.

(** The copy button of an email cell; [email] is the trimmed cell the
    render computed.  The toast follows the awaited write, so it is shown
    only when the write succeeds. *)
Definition onCopyClick (cl : State) (email : string) (clipboard : ClipboardOutcome)
  : Handler :=
  if Js.truthyStr email then
    match clipboard with
    | ClipboardWritten =>
        perform (ClipboardWrite email) >> toast_success "Email copied to clipboard"
    | ClipboardRejected => perform (ClipboardWrite email)
    | ClipboardUnavailable => skip
    end
  else skip.

(** The skip-list warning of step 1: [Some n] when the banner is rendered
    and reports [n] emails, [None] when nothing is rendered; it throws when
    the check of a row throws. *)
Definition skippableEmails (cl : State) : Try (list CSVRow) :=
  filterTry (isSkippable toLowerCase (emailColumn cl)) rows.

Definition skipWarning (cl : State) : Try (option nat) :=
  match step cl with
  | Step1 =>
      if Js.truthyStr (emailColumn cl) then
        skippable <- skippableEmails cl ;;;
        Returned (if (List.length skippable =? 0)%nat then None
                  else Some (List.length skippable))
      else Returned None
  | Step2 => Returned None
  end.

(** Whether the control behind an event is rendered and enabled. *)
Definition available (cl : State) (e : Event) : bool :=
  match e with
  | PropsEffect => true
  | ChooseEmailColumn value =>
      bool_decide (value ∈ columns)
      && match step cl with
         | Step1 => negb (Js.truthyStr (emailColumn cl)) || showEmailDropdown cl
         | Step2 => showEmailDropdown cl
         end
  | ClickChange =>
      negb (showEmailDropdown cl)
      && match step cl with
         | Step1 => Js.truthyStr (emailColumn cl)
         | Step2 => true
         end
  | ClickNext =>
      match step cl with Step1 => negb (nextDisabled cl) | Step2 => false end
  | ClickBack =>
      match step cl with Step1 => false | Step2 => true end
  | ClickPreset index =>
      match step cl, PRESET_FIELDS !! index with
      | Step2, Some field => negb (presetDisabled cl field)
      | _, _ => false
      end
  | ToggleNaturalLanguage | ToggleManualAdd =>
      match step cl with Step1 => false | Step2 => true end
  | TypePrompt _ =>
      match step cl with Step1 => false | Step2 => showNaturalLanguage cl end
  | ClickGenerate =>
      match step cl with
      | Step1 => false
      | Step2 => showNaturalLanguage cl && negb (generateDisabled cl)
      end
  | RequestSettled _ => bool_decide (is_Some (pendingRequest cl))
  | TypeCustomName _ | TypeCustomDescription _ =>
      match step cl with Step1 => false | Step2 => showManualAdd cl end
  | PickCustomType value =>
      match step cl with
      | Step1 => false
      | Step2 => showManualAdd cl
                 && Js.includes ["string"; "number"; "boolean"; "array"] value
      end
  | ClickAddField =>
      match step cl with
      | Step1 => false
      | Step2 => showManualAdd cl && negb (addFieldDisabled cl)
      end
  | ClickAccept idx | ClickReject idx =>
      match step cl with
      | Step1 => false
      | Step2 => bool_decide (is_Some (suggestedFields cl !! idx))
      end
  | ClickShowMoreRows => negb (showAllRows cl) && (3 <? List.length rows)%nat
  | ClickShowLess => showAllRows cl
  | ClickCopy rowIdx _ =>
      bool_decide (emailColumn cl ∈ columns)
      && match displayRows cl !! rowIdx with
         | Some row =>
             match emailOfCell row (emailColumn cl) with
             | Returned _ => true
             | Thrown _ => false
             end
         | None => false
         end
  | ClickStartEnrichment =>
      match step cl with
      | Step1 => false
      | Step2 => negb (startEnrichmentDisabled cl)
      end
  end.

(** The handler an event runs, as the render of [cl] wired it. *)
Definition handlerOf (cl : State) (e : Event) : Handler :=
  match e with
  | PropsEffect => detectionEffect cl
  | ChooseEmailColumn value => onEmailColumnChange cl value
  | ClickChange => setShowEmailDropdown true
  | ClickNext => setStep Step2
  | ClickBack => setStep Step1
  | ClickPreset index =>
      match PRESET_FIELDS !! index with
      | Some field => onPresetClick cl field
      | None => skip
      end
  | ToggleNaturalLanguage => setShowNaturalLanguage (negb (showNaturalLanguage cl))
  | TypePrompt text => setNaturalLanguageInput text
  | ClickGenerate => handleGenerateFields cl
  | RequestSettled outcome =>
      match pendingRequest cl with
      | Some selected => handleGenerateFields_resume selected outcome
      | None => skip
      end
  | ToggleManualAdd => setShowManualAdd (negb (showManualAdd cl))
  | TypeCustomName text =>
      setCustomField (mkCustom text (customDescription (customField cl))
                               (customType (customField cl)))
  | TypeCustomDescription text =>
      setCustomField (mkCustom (customName (customField cl)) text
                               (customType (customField cl)))
  | PickCustomType value =>
      setCustomField (mkCustom (customName (customField cl))
                               (customDescription (customField cl)) value)
  | ClickAddField => handleAddCustomField cl
  | ClickAccept idx =>
      match suggestedFields cl !! idx with
      | Some field => onAcceptClick cl idx field
      | None => skip
      end
  | ClickReject idx => onRejectClick cl idx
  | ClickShowMoreRows => setShowAllRows true
  | ClickShowLess => setShowAllRows false
  | ClickCopy rowIdx clipboard =>
      match displayRows cl !! rowIdx with
      | Some row =>
          match emailOfCell row (emailColumn cl) with
          | Returned email => onCopyClick cl email clipboard
          | Thrown _ => skip
          end
      | None => skip
      end
  | ClickStartEnrichment => onStartEnrichmentClick cl
  end.

(** One event against the current state: an event whose control is not
    rendered, or is disabled, does nothing. *)
Definition dispatch (s : State) (e : Event) : State * list Effect :=
  if available s e then handlerOf s e s else (s, []).

(** A session: the events in order, every handler created by the render of
    the state it runs against. *)
Fixpoint run (s : State) (events : list Event) : State * list Effect :=
  match events with
  | [] => (s, [])
  | e :: rest =>
      let '(s1, out1) := dispatch s e in
      let '(s2, out2) := run s1 rest in
      (s2, out1 ++ out2)
  end.

(** Manual entry as the user performs it: fill the form, press "Add Field". *)
Definition submitManual (form : CustomField) (s : State) : State * list Effect :=
  let filled := (setCustomField form s).1 in
  handleAddCustomField filled filled.

Definition reachable (s : State) : Prop :=
  exists events, (run initialState events).1 = s.

End Component.

End View.

Import View.

(** ** A session used to exercise the theorems

    A detector that reports the column "email" with confidence 80, the two
    rows of the spec's example, and a user who goes to step 2, adds the
    five remaining presets and two manual fields named "Revenue" (ten
    fields in all), then asks for a "CEO name" field and gets one
    suggestion back. *)

Definition demoDetect (rows : list CSVRow) (columns : list string) : Detection :=
  mkDetection (Some "email") (Qc_of_Z 80).

Definition demoRows : list CSVRow :=
  [ {[ "email" := "a@gmail.com" ]}; {[ "email" := "b@acme.com" ]} ].

Definition demoColumns : list string := ["email"].

Definition demoDispatch : State -> Event -> State * list Effect :=
  dispatch generateVariableName_spec demoDetect demoRows demoColumns.

Definition demoRun : State -> list Event -> State * list Effect :=
  run generateVariableName_spec demoDetect demoRows demoColumns.

Definition responseWith (success : JsValue) (elements : list FieldDescriptor)
  : FetchOutcome :=
  FetchResolved true
    (Some (JsObject [("success", success);
                     ("data", JsObject [("fields", JsDescriptors elements)])])).

Definition ceoDescriptor : FieldDescriptor :=
  mkDescriptor "CEO Name" "The chief executive" "text".

Definition ceoField : EnrichmentField :=
  mkField "CEO Name" "CEO Name" "The chief executive" "string" false.

Definition fillToTen : list Event :=
  [ PropsEffect; ClickNext;
    ClickPreset 3; ClickPreset 4; ClickPreset 5; ClickPreset 6; ClickPreset 7;
    ToggleManualAdd; TypeCustomName "Revenue";
    TypeCustomDescription "Annual revenue"; ClickAddField;
    ToggleManualAdd; TypeCustomName "Revenue";
    TypeCustomDescription "Revenue last year"; ClickAddField ].

Definition askForCeo : list Event :=
  [ ToggleNaturalLanguage; TypePrompt "CEO name"; ClickGenerate ].

Definition fullSession : list Event :=
  fillToTen ++ askForCeo
  ++ [RequestSettled (responseWith (JsBool true) [ceoDescriptor])].

(** Ten fields selected, the request in flight. *)
Definition waitingState : State := (demoRun initialState (fillToTen ++ askForCeo)).1.

(** Ten fields selected, one suggestion on offer. *)
Definition fullState : State := (demoRun initialState fullSession).1.

(** ** The preview table and its controls

    The part of the render that shows data: the cells of the rows on
    display, the header columns of the selected fields and the two "more"
    labels.  [EMAIL_REGEX] comes from [@/lib/utils/email-detection], which
    is not among the sources; its [test] is a parameter. *)

(** A string of white space only: every character is one that [trim]
    removes. *)
Fixpoint isBlank (s : string) : bool :=
  match s with
  | EmptyString => true
  | String a s1 =>
      if Js.isWhiteSpace a then isBlank s1
      else match s1 with
           | String b s2 =>
               if Js.isWhiteSpace2 a b then isBlank s2
               else match s2 with
                    | String c s3 => Js.isWhiteSpace3 a b c && isBlank s3
                    | EmptyString => false
                    end
           | EmptyString => false
           end
  end.

(** The string begins with a character that [w1], [w2], [w3] recognise. *)
Definition leadsWithWhiteSpace (w1 : ascii -> bool) (w2 : ascii -> ascii -> bool)
    (w3 : ascii -> ascii -> ascii -> bool) (s : string) : bool :=
  match s with
  | EmptyString => false
  | String a s1 =>
      w1 a
      || match s1 with
         | EmptyString => false
         | String b s2 =>
             w2 a b
             || match s2 with
                | EmptyString => false
                | String c _ => w3 a b c
                end
         end
  end.

(** White space at the start, and at the end, of a string. *)
Definition startsWithWhiteSpace (s : string) : bool :=
  leadsWithWhiteSpace Js.isWhiteSpace Js.isWhiteSpace2 Js.isWhiteSpace3 s.

Definition endsWithWhiteSpace (s : string) : bool :=
  leadsWithWhiteSpace Js.isWhiteSpace (fun a b => Js.isWhiteSpace2 b a)
    (fun a b c => Js.isWhiteSpace3 c b a) (Js.revString s "").

(** The three styles of an email cell. *)
Inductive EmailClass : Type := EmailValid | EmailInvalid | EmailEmpty.

Module Preview.

Section Preview.

Variable EMAIL_REGEX_test : string -> bool.
Variable rows : list CSVRow.

(** The class of the email cell:
    [isValidEmail ? valid : email ? invalid : empty]. *)
Definition emailCellClass (row : CSVRow) (col : string) : Try EmailClass :=
  email <- emailOfCell row col ;;;
  let isValidEmail := Js.truthyStr email && EMAIL_REGEX_test email in
  Returned (if isValidEmail then EmailValid
            else if Js.truthyStr email then EmailInvalid
            else EmailEmpty).

(** The text of the email cell: [email || "-"]. *)
Definition emailCellText (row : CSVRow) (col : string) : Try string :=
  email <- emailOfCell row col ;;;
  Returned (if Js.truthyStr email then email else "-").

(** The header columns of the selected fields:
    [step >= 2 && visibleFields.map(...)]. *)
Definition previewColumns (cl : State) : list EnrichmentField :=
  match step cl with
  | Step1 => []
  | Step2 => visibleFields cl
  end.

(** The "+N more" header: [Some N] when it is rendered. *)
Definition moreFieldsLabel (cl : State) : option nat :=
  match step cl with
  | Step1 => None
  | Step2 =>
      if (maxVisibleFields <? List.length (selectedFields cl))%nat
      then Some (List.length (selectedFields cl) - maxVisibleFields)%nat
      else None
  end.

(** The "Show N more rows" button: [Some N] when it is rendered. *)
Definition moreRowsLabel (cl : State) : option nat :=
  if negb (showAllRows cl) && (3 <? List.length rows)%nat
  then Some (List.length rows - 3)%nat
  else None.

End Preview.

End Preview.

Import Preview.

(** ** The skip check as the claim words it

    To compare with [isSkippable]: the cell is lowercased and split at the
    first "@", and the domain part is all that follows. *)

Fixpoint afterFirstAt (s : string) : option string :=
  match s with
  | EmptyString => None
  | String c s' => if Ascii.eqb c "@" then Some s' else afterFirstAt s'
  end.

Definition countedByFirstAt (toLowerCase : string -> string)
    (col : string) (row : CSVRow) : bool :=
  match row !! col with
  | Some value =>
      match afterFirstAt (toLowerCase value) with
      | Some domain => Js.includes commonDomains domain
      | None => false
      end
  | None => false
  end.

(** The check of a row returned [true]. *)
Definition returnsTrue (checked : Try bool) : bool :=
  match checked with
  | Returned true => true
  | _ => false
  end.

(** ** Further sessions

    A row whose email has a second "@"; a user who, while the request for
    "CEO name" is in flight, adds a field named "CEO Name" by hand; a user
    who opens the manual form and types a name but no description. *)

Definition twoAtRow : CSVRow := {[ "email" := "a@gmail.com@evil.org" ]}.

Definition staleSession : list Event :=
  [ PropsEffect; ClickNext;
    ToggleNaturalLanguage; TypePrompt "CEO name"; ClickGenerate;
    ToggleManualAdd; TypeCustomName "CEO Name";
    TypeCustomDescription "The chief executive"; ClickAddField;
    RequestSettled (responseWith (JsBool true) [ceoDescriptor]) ].

Definition halfFilledForm : list Event :=
  [ PropsEffect; ClickNext; ToggleManualAdd; TypeCustomName "Revenue" ].

(** ** Invariants of the sessions *)

(** The flag and the request in flight go together. *)
Definition generatingMatchesRequest (s : State) : Prop :=
  isGenerating s = true <-> is_Some (pendingRequest s).

(** What holds of a state from which the enrichment may be started. *)
Definition readyToStart (s : State) : Prop :=
  wellFormed (selectedFields s) /\ (step s = Step2 -> emailColumn s <> "").

(** ** Inputs used to exercise the further properties

    A stand-in for [EMAIL_REGEX.test] (it accepts the strings that contain
    an "@"), a table of four rows, a row whose email is padded with a
    space, a NO-BREAK SPACE and a tab, and a prompt of one NO-BREAK
    SPACE. *)

Definition demoRegexTest (email : string) : bool := Js.containsChar "@" email.

Definition fourRows : list CSVRow := demoRows ++ demoRows.

Definition noBreakSpace : string :=
  String (ascii_of_nat 194) (String (ascii_of_nat 160) "").

Definition paddedRow : CSVRow :=
  {[ "email" := " " +:+ noBreakSpace +:+ "ann@acme.com" +:+ noBreakSpace
                +:+ String (ascii_of_nat 9) "" ]}.

Definition secondCeoDescriptor : FieldDescriptor :=
  mkDescriptor "CEO Name" "Who runs the company" "array".

(** * Properties *)

(** ** JavaScript primitives *)

Lemma strictEq_true (s t : string) : Js.strictEq s t = true <-> s = t.
Proof. unfold Js.strictEq. apply String.eqb_eq. Qed.

Lemma strictEq_false (s t : string) : Js.strictEq s t = false <-> s <> t.
Proof. unfold Js.strictEq. apply String.eqb_neq. Qed.

Lemma truthyStr_true (s : string) : Js.truthyStr s = true <-> s <> "".
Proof.
  unfold Js.truthyStr. rewrite negb_true_iff. apply strictEq_false.
Qed.

Lemma truthyStr_false (s : string) : Js.truthyStr s = false <-> s = "".
Proof.
  unfold Js.truthyStr. rewrite negb_false_iff. apply strictEq_true.
Qed.

Lemma includes_true (xs : list string) (x : string) :
  Js.includes xs x = true <-> x ∈ xs.
Proof.
  unfold Js.includes. rewrite existsb_exists. split.
  - intros (y & Hy & Heq). apply strictEq_true in Heq. subst y.
    by apply list_elem_of_In.
  - intros Hx. exists x. split; [by apply list_elem_of_In | by apply strictEq_true].
Qed.

(** Filtering on the index alone deletes exactly that index. *)
Lemma filterIndexFrom_delete {A} (xs : list A) (base idx : nat) :
  Js.filterIndexFrom (fun i => negb (i =? idx)%nat) base xs
  = if (idx <? base)%nat then xs else delete (idx - base)%nat xs.
Proof.
  revert base. induction xs as [|x xs IH]; intros base; simpl.
  - by destruct (idx <? base)%nat.
  - rewrite IH. destruct (Nat.eqb_spec base idx) as [->|Hne]; simpl.
    + rewrite Nat.sub_diag.
      destruct (Nat.ltb_spec idx (S idx)); [|lia].
      by destruct (Nat.ltb_spec idx idx); [lia|].
    + destruct (Nat.ltb_spec idx base) as [Hlt|Hge].
      * by destruct (Nat.ltb_spec idx (S base)); [|lia].
      * destruct (Nat.ltb_spec idx (S base)); [lia|].
        by replace (idx - base)%nat with (S (idx - S base)) by lia.
Qed.

Lemma filterIndex_delete {A} (xs : list A) (idx : nat) :
  Js.filterIndex (fun i => negb (i =? idx)%nat) xs = delete idx xs.
Proof.
  unfold Js.filterIndex. rewrite filterIndexFrom_delete. simpl.
  by rewrite Nat.sub_0_r.
Qed.

Lemma append_cons (c : ascii) (s t : string) :
  String c s +:+ t = String c (s +:+ t).
Proof. reflexivity. Qed.

Lemma append_empty_r (s : string) : s +:+ "" = s.
Proof. induction s as [|c s IH]; [done | by rewrite append_cons, IH]. Qed.

(** [split]: the first piece is the text before the first separator, and
    the remaining pieces are the split of what follows it. *)
Lemma split_first (sep : ascii) (s : string) :
  exists piece pieces,
    Js.split sep s = piece :: pieces
    /\ Js.containsChar sep piece = false
    /\ ((pieces = [] /\ s = piece)
        \/ (exists s', s = piece +:+ String sep s' /\ Js.split sep s' = pieces)).
Proof.
  induction s as [|c s IH]; simpl.
  - exists "", []. auto.
  - destruct (Ascii.eqb_spec c sep) as [->|Hne].
    + exists "", (Js.split sep s). split; [done|]. split; [done|]. right. by exists s.
    + destruct IH as (piece & pieces & -> & Hfree & Hrest).
      exists (String c piece), pieces. split; [done|]. split.
      * simpl. by apply Ascii.eqb_neq in Hne as ->.
      * destruct Hrest as [[-> ->]|(s' & -> & <-)]; [by left|].
        right. by exists s'.
Qed.

Lemma split_whole (sep : ascii) (piece : string) :
  Js.containsChar sep piece = false -> Js.split sep piece = [piece].
Proof.
  induction piece as [|c piece IH]; simpl; [done|].
  intros H. apply orb_false_elim in H as [-> H]. by rewrite IH.
Qed.

Lemma split_append (sep : ascii) (piece rest : string) :
  Js.containsChar sep piece = false ->
  Js.split sep (piece +:+ String sep rest) = piece :: Js.split sep rest.
Proof.
  induction piece as [|c piece IH]; simpl.
  - intros _. change ("" +:+ String sep rest) with (String sep rest). simpl.
    by rewrite Ascii.eqb_refl.
  - intros H. apply orb_false_elim in H as [Hc H]. rewrite ?append_cons. simpl.
    by rewrite Hc, IH by done.
Qed.

(** The piece [split] puts at index 1 is the text between the first
    separator and the next one, or the end of the string. *)
Lemma split_second (sep : ascii) (s domain : string) :
  Js.split sep s !! 1%nat = Some domain
  <-> exists loc rest,
        s = loc +:+ String sep (domain +:+ rest)
        /\ Js.containsChar sep loc = false
        /\ Js.containsChar sep domain = false
        /\ (rest = "" \/ exists r, rest = String sep r).
Proof.
  split.
  - intros H. destruct (split_first sep s) as (loc & pieces & Hs & Hloc & Hrest).
    rewrite Hs in H. simpl in H.
    destruct Hrest as [[-> _]|(s' & -> & Hs')]; [done|].
    destruct (split_first sep s') as (d & more & Hd & Hfree & Hmore).
    rewrite <- Hs', Hd in H. simpl in H. injection H as ->.
    destruct Hmore as [[-> ->]|(s'' & -> & _)].
    + exists loc, "". rewrite append_empty_r. split_and!; auto.
    + exists loc, (String sep s''). split_and!; eauto.
  - intros (loc & rest & -> & Hloc & Hdom & Hrest).
    rewrite split_append by done. simpl.
    destruct Hrest as [->|(r & ->)].
    + by rewrite append_empty_r, split_whole.
    + by rewrite split_append.
Qed.

(** ** Field lists *)

Lemma findByName_None (n : string) (fields : list EnrichmentField) :
  findByName n fields = None <-> n ∉ names fields.
Proof.
  unfold findByName, names. induction fields as [|f fields IH]; simpl.
  - split; [intros _; apply not_elem_of_nil | done].
  - rewrite not_elem_of_cons.
    destruct (Js.strictEq (name f) n) eqn:E.
    + apply strictEq_true in E. split; [done | intros [Hne _]; congruence].
    + apply strictEq_false in E. rewrite IH. split; [intros ?; split; congruence | tauto].
Qed.

Lemma findByName_Some (n : string) (fields : list EnrichmentField) (f : EnrichmentField) :
  findByName n fields = Some f -> name f = n /\ f ∈ fields.
Proof.
  unfold findByName. intros H. apply find_some in H as [Hin Heq].
  split; [by apply strictEq_true | by apply list_elem_of_In].
Qed.

Lemma findByName_is_Some (n : string) (fields : list EnrichmentField) :
  is_Some (findByName n fields) <-> n ∈ names fields.
Proof.
  destruct (findByName n fields) as [f|] eqn:E.
  - split; [intros _ | by eauto].
    apply findByName_Some in E as [<- Hin]. unfold names.
    apply list_elem_of_In, in_map. by apply list_elem_of_In.
  - split; [by intros [? ?]|]. intros Hin. by apply findByName_None in E.
Qed.

Lemma names_filter (n : string) (fields : list EnrichmentField) :
  names (List.filter (fun f => negb (Js.strictEq (name f) n)) fields)
  = List.filter (fun x => negb (Js.strictEq x n)) (names fields).
Proof.
  unfold names. induction fields as [|f fields IH]; simpl; [done|].
  destruct (Js.strictEq (name f) n); simpl; by rewrite IH.
Qed.

Lemma length_filter_le {A} (p : A -> bool) (l : list A) :
  (List.length (List.filter p l) <= List.length l)%nat.
Proof. induction l as [|x l IH]; simpl; [done|]. destruct (p x); simpl; lia. Qed.

Lemma fieldsStep_wellFormed (l l' : list EnrichmentField) :
  fieldsStep l l' -> wellFormed l -> wellFormed l'.
Proof.
  intros Hstep [Hlen Hnd]. destruct Hstep as [|n|f Hlt Hfresh].
  - done.
  - split.
    + pose proof (length_filter_le (fun f => negb (Js.strictEq (name f) n)) l). lia.
    + rewrite names_filter. by apply NoDup_ListNoDup, List.NoDup_filter, NoDup_ListNoDup.
  - split.
    + rewrite length_app. simpl. lia.
    + unfold names in *. rewrite map_app. simpl. apply NoDup_app.
      split; [done|]. split; [|apply NoDup_singleton].
      intros x Hx Hx'. apply list_elem_of_singleton in Hx'. by subst x.
Qed.

Lemma fieldsStep_length (l l' : list EnrichmentField) :
  fieldsStep l l' -> (List.length l <= 10)%nat -> (List.length l' <= 10)%nat.
Proof.
  intros [|n|f Hlt Hfresh] Hlen.
  - done.
  - pose proof (length_filter_le (fun f => negb (Js.strictEq (name f) n)) l). lia.
  - rewrite length_app. simpl. lia.
Qed.

Lemma defaultSelectedFields_wellFormed : wellFormed defaultSelectedFields.
Proof.
  split; [vm_compute; lia|].
  change (names defaultSelectedFields)
    with ["companyName"; "companyDescription"; "industry"].
  apply (bool_decide_unpack _). by vm_compute.
Qed.

(** ** The component's handlers *)

Section ComponentProperties.

Variable generateVariableName : string -> list string -> string.
Variable detectEmailColumn : list CSVRow -> list string -> Detection.
Variable toLowerCase : string -> string.
Variable rows : list CSVRow.
Variable columns : list string.

Local Abbreviation dispatch := (View.dispatch generateVariableName detectEmailColumn rows columns).
Local Abbreviation run := (View.run generateVariableName detectEmailColumn rows columns).
Local Abbreviation available := (View.available rows columns).

Ltac unfold_handlers :=
  unfold View.dispatch, handlerOf, View.available, detectionEffect,
    onEmailColumnChange, onPresetClick, onAcceptClick, onRejectClick,
    onStartEnrichmentClick, onCopyClick, handleAddCustomField,
    handleGenerateFields, handleGenerateFields_resume, handleAddField,
    handleRemoveField, andThen, toast_error, toast_success, console_error,
    perform, skip, setStep, setEmailColumn, setSelectedFields, setShowManualAdd,
    setShowNaturalLanguage, setNaturalLanguageInput, setSuggestedFields,
    setIsGenerating, setShowAllRows, setShowEmailDropdown,
    setShowEmailDropdownStep1, setCustomField, setPendingRequest in *.

(** What [handleAddField] does to the selected fields, in its three cases. *)
Lemma handleAddField_full (s : State) (field : EnrichmentField) :
  (10 <= List.length (selectedFields s))%nat ->
  handleAddField s field s = (s, [ToastError "Maximum 10 fields allowed"]).
Proof.
  intros H. unfold_handlers.
  by destruct (Nat.leb_spec 10 (List.length (selectedFields s))); [|lia].
Qed.

Lemma handleAddField_duplicate (s : State) (field : EnrichmentField) :
  (List.length (selectedFields s) < 10)%nat ->
  name field ∈ names (selectedFields s) ->
  handleAddField s field s = (s, []).
Proof.
  intros H Hin. unfold_handlers.
  destruct (Nat.leb_spec 10 (List.length (selectedFields s))); [lia|].
  apply findByName_is_Some in Hin as [f' ->]. done.
Qed.

Lemma handleAddField_fresh (s : State) (field : EnrichmentField) :
  (List.length (selectedFields s) < 10)%nat ->
  name field ∉ names (selectedFields s) ->
  handleAddField s field s
  = ((setSelectedFields (selectedFields s ++ [field]) s).1, []).
Proof.
  intros H Hin. unfold_handlers.
  destruct (Nat.leb_spec 10 (List.length (selectedFields s))); [lia|].
  apply findByName_None in Hin as ->. done.
Qed.

Lemma handleAddField_fieldsStep (s : State) (field : EnrichmentField) :
  fieldsStep (selectedFields s) (selectedFields (handleAddField s field s).1).
Proof.
  destruct (Nat.leb_spec 10 (List.length (selectedFields s))) as [Hfull|Hroom].
  - rewrite handleAddField_full by done. constructor.
  - destruct (decide (name field ∈ names (selectedFields s))) as [Hin|Hout].
    + rewrite handleAddField_duplicate by done. constructor.
    + rewrite handleAddField_fresh by done. simpl. by constructor.
Qed.

Lemma andThen_selected (h1 h2 : Handler) (s : State) :
  keepsSelected h2 ->
  selectedFields ((h1 >> h2) s).1 = selectedFields (h1 s).1.
Proof.
  intros H. unfold andThen. destruct (h1 s) as [s1 out1].
  specialize (H s1). destruct (h2 s1) as [s2 out2]. done.
Qed.

Lemma keepsSelected_andThen (h1 h2 : Handler) :
  keepsSelected h1 -> keepsSelected h2 -> keepsSelected (h1 >> h2).
Proof. intros H1 H2 s. rewrite andThen_selected by done. apply H1. Qed.

Lemma resume_keepsSelected (selected : list EnrichmentField) (outcome : FetchOutcome) :
  keepsSelected (handleGenerateFields_resume generateVariableName selected outcome).
Proof.
  unfold handleGenerateFields_resume.
  destruct (convertResponse _ _ _); repeat apply keepsSelected_andThen; by intros s.
Qed.

Lemma dispatch_fieldsStep (s : State) (e : Event) :
  fieldsStep (selectedFields s) (selectedFields (dispatch s e).1).
Proof.
  unfold View.dispatch. destruct (View.available _ _ s e); [|constructor].
  destruct e; simpl;
    try solve [unfold_handlers; repeat case_match; simpl; apply fieldsStep_same].
  - destruct (PRESET_FIELDS !! index) as [field|]; [|constructor].
    unfold onPresetClick. destruct (isSelected s field).
    + apply (fieldsStep_remove _ (name field)).
    + apply handleAddField_fieldsStep.
  - destruct (pendingRequest s) as [selected|]; [|constructor].
    rewrite resume_keepsSelected. constructor.
  - unfold handleAddCustomField. case_match; [constructor|].
    rewrite !andThen_selected by (by intros ?). apply handleAddField_fieldsStep.
  - destruct (suggestedFields s !! idx) as [field|]; [|constructor].
    unfold onAcceptClick.
    rewrite andThen_selected by (by intros ?). apply handleAddField_fieldsStep.
Qed.

Lemma dispatch_wellFormed (s : State) (e : Event) :
  wellFormed (selectedFields s) -> wellFormed (selectedFields (dispatch s e).1).
Proof. apply fieldsStep_wellFormed, dispatch_fieldsStep. Qed.

Lemma run_wellFormed (events : list Event) (s : State) :
  wellFormed (selectedFields s) -> wellFormed (selectedFields (run s events).1).
Proof.
  revert s. induction events as [|e events IH]; intros s Hs; simpl; [done|].
  pose proof (dispatch_wellFormed s e Hs) as Hstep.
  destruct (dispatch s e) as [s1 out1]. specialize (IH s1 Hstep).
  by destruct (run s1 events) as [s2 out2].
Qed.

Lemma reachable_wellFormed (s : State) :
  reachable generateVariableName detectEmailColumn rows columns s ->
  wellFormed (selectedFields s).
Proof.
  intros [events <-]. apply run_wellFormed, defaultSelectedFields_wellFormed.
Qed.

(** C1. Whatever the user does (preset toggles, manual entries, accepted
    suggestions, in any order and mixed with every other event), the
    selected-fields list never has more than 10 members; and the add
    operation, called on a list that has already reached 10 members, returns
    the state unchanged and shows the toast "Maximum 10 fields allowed". *)
Theorem selected_fields_never_exceed_ten :
  (forall events : list Event,
      (List.length (selectedFields (run initialState events).1) <= 10)%nat)
  /\ (forall (s : State) (field : EnrichmentField),
         (10 <= List.length (selectedFields s))%nat ->
         handleAddField s field s = (s, [ToastError "Maximum 10 fields allowed"])).
Proof.
  split.
  - intros events.
    apply (run_wellFormed events initialState defaultSelectedFields_wellFormed).
  - apply handleAddField_full.
Qed.

(** The form submitted through [submitManual] on a list with room. *)
Lemma submitManual_adds (form : CustomField) (s : State) :
  customName form <> "" -> customDescription form <> "" ->
  (List.length (selectedFields s) < 10)%nat ->
  generateVariableName (customName form) (names (selectedFields s))
    ∉ names (selectedFields s) ->
  selectedFields (submitManual generateVariableName form s).1
  = selectedFields s
      ++ [ {| name := generateVariableName (customName form) (names (selectedFields s));
              displayName := customName form;
              description := customDescription form;
              type := customType form;
              required := false |} ].
Proof.
  intros Hn Hd Hlen Hfresh. unfold submitManual, handleAddCustomField.
  set (filled := (setCustomField form s).1).
  change (customField filled) with form.
  change (selectedFields filled) with (selectedFields s) in *.
  apply truthyStr_true in Hn as ->. apply truthyStr_true in Hd as ->. simpl.
  rewrite !andThen_selected by (by intros ?).
  rewrite handleAddField_fresh; [reflexivity | exact Hlen | exact Hfresh].
Qed.

(** C2. In every reachable state the selected fields have pairwise distinct
    names.  The one add operation leaves the list as it is when the name of
    the field is already taken.  Manual entry asks the helper for a name
    against the names selected at that moment: with a helper that never
    returns a name it was given, entering the same display name twice gives
    a second identifier different from the first, and when both entries fit
    under the cap the list ends with the two fields under distinct names. *)
Theorem selected_names_are_unique :
  (forall s : State,
      reachable generateVariableName detectEmailColumn rows columns s ->
      NoDup (names (selectedFields s)))
  /\ (forall (s : State) (field : EnrichmentField),
         name field ∈ names (selectedFields s) ->
         selectedFields (handleAddField s field s).1 = selectedFields s)
  /\ (neverCollides generateVariableName ->
      forall (s : State) (display d1 t1 d2 t2 : string),
        display <> "" -> d1 <> "" -> d2 <> "" ->
        (List.length (selectedFields s) < 10)%nat ->
        let s1 := (submitManual generateVariableName (mkCustom display d1 t1) s).1 in
        let s2 := (submitManual generateVariableName (mkCustom display d2 t2) s1).1 in
        let id1 := generateVariableName display (names (selectedFields s)) in
        let id2 := generateVariableName display (names (selectedFields s1)) in
        selectedFields s1 = selectedFields s ++ [mkField id1 display d1 t1 false]
        /\ id1 <> id2
        /\ ((List.length (selectedFields s) < 9)%nat ->
            selectedFields s2
            = selectedFields s ++ [mkField id1 display d1 t1 false;
                                   mkField id2 display d2 t2 false])).
Proof.
  split; [|split].
  - intros s Hs. by apply reachable_wellFormed.
  - intros s field Hin.
    destruct (Nat.leb_spec 10 (List.length (selectedFields s))).
    + by rewrite handleAddField_full.
    + by rewrite handleAddField_duplicate.
  - intros Hgen s display d1 t1 d2 t2 Hn Hd1 Hd2 Hlen s1 s2 id1 id2.
    assert (Hs1 : selectedFields s1
                  = selectedFields s ++ [mkField id1 display d1 t1 false]).
    { subst s1 id1.
      by rewrite submitManual_adds; [| exact Hn | exact Hd1 | exact Hlen | apply Hgen]. }
    split; [done|]. split.
    + intros Heq. apply (Hgen display (names (selectedFields s1))).
      fold id2. rewrite <- Heq, Hs1. unfold names. rewrite map_app. simpl.
      apply elem_of_app. right. apply list_elem_of_singleton. done.
    + intros Hlen9. subst s2.
      rewrite submitManual_adds; [| exact Hn | exact Hd2 | | apply Hgen].
      * simpl. fold s1. fold id2. rewrite Hs1 at 1. by rewrite <- app_assoc.
      * rewrite Hs1, length_app. simpl. lia.
Qed.

(** *** Suggested fields *)

Lemma withoutIndex_delete (idx : nat) (fields : list EnrichmentField) :
  withoutIndex idx fields = delete idx fields.
Proof. apply filterIndex_delete. Qed.

Lemma onAcceptClick_eq (s : State) (idx : nat) (field : EnrichmentField) :
  onAcceptClick s idx field s
  = let '(s1, out) := handleAddField s field s in
    ((setSuggestedFields (delete idx (suggestedFields s)) s1).1, out).
Proof.
  unfold onAcceptClick, andThen. rewrite withoutIndex_delete.
  destruct (handleAddField s field s) as [s1 out]. simpl.
  by rewrite app_nil_r.
Qed.

(** C3, as the code has it.  Accepting the card at [idx] always removes
    that card from the suggestions.  The field is appended to the selected
    list only when fewer than 10 fields are selected and none of them has
    its name; with 10 selected the list stays as it is and the capacity
    toast is shown; with the name already selected the list stays as it is,
    silently.  A list within the cap stays within the cap.  Rejecting the
    card removes it and changes nothing else. *)
Theorem accept_and_reject_suggestion
    (s : State) (idx : nat) (field : EnrichmentField) :
  suggestedFields s !! idx = Some field ->
  let accepted := onAcceptClick s idx field s in
  let rejected := onRejectClick s idx s in
  suggestedFields accepted.1 = delete idx (suggestedFields s)
  /\ ((List.length (selectedFields s) < 10)%nat ->
      name field ∉ names (selectedFields s) ->
      selectedFields accepted.1 = selectedFields s ++ [field] /\ accepted.2 = [])
  /\ ((10 <= List.length (selectedFields s))%nat ->
      selectedFields accepted.1 = selectedFields s
      /\ accepted.2 = [ToastError "Maximum 10 fields allowed"])
  /\ ((List.length (selectedFields s) < 10)%nat ->
      name field ∈ names (selectedFields s) ->
      selectedFields accepted.1 = selectedFields s /\ accepted.2 = [])
  /\ ((List.length (selectedFields s) <= 10)%nat ->
      (List.length (selectedFields accepted.1) <= 10)%nat)
  /\ suggestedFields rejected.1 = delete idx (suggestedFields s)
  /\ selectedFields rejected.1 = selectedFields s
  /\ rejected.2 = [].
Proof.
  intros _ accepted rejected. subst accepted rejected.
  rewrite onAcceptClick_eq. unfold onRejectClick. rewrite withoutIndex_delete.
  repeat split.
  - by destruct (handleAddField s field s).
  - by rewrite handleAddField_fresh.
  - by rewrite handleAddField_fresh.
  - by rewrite handleAddField_full.
  - by rewrite handleAddField_full.
  - by rewrite handleAddField_duplicate.
  - by rewrite handleAddField_duplicate.
  - intros Hle. pose proof (handleAddField_fieldsStep s field) as Hstep.
    destruct (handleAddField s field s) as [s1 out]. simpl in *.
    by apply (fieldsStep_length _ _ Hstep).
Qed.

(** *** Field generation *)

Lemma convertResponse_truthyShape
    (selected : list EnrichmentField) (outcome : FetchOutcome) :
  match truthyShape outcome with
  | Some elements =>
      convertResponse generateVariableName selected outcome
      = Returned (List.map (convertField generateVariableName selected) elements)
  | None =>
      exists message,
        convertResponse generateVariableName selected outcome = Thrown message
  end.
Proof.
  unfold truthyShape, fieldsOf, convertResponse.
  destruct outcome as [|[] [result|]]; simpl; eauto.
  destruct result; simpl; eauto.
  destruct (JsValues.truthy (JsValues.lookupProp "success" props)) eqn:Hsuccess;
    simpl; rewrite ?Hsuccess; eauto.
  destruct (JsValues.lookupProp "data" props) as [| |b|z|str|?|dataProps];
    simpl; eauto.
  - destruct b; simpl; eauto.
  - destruct (negb (z =? 0)%Z) eqn:Hz; simpl; rewrite ?Hz; eauto.
  - destruct (Js.truthyStr str) eqn:Hstr; simpl; rewrite ?Hstr; eauto.
  - destruct (JsValues.lookupProp "fields" dataProps) as [| |b|z|str|?|?];
      simpl; eauto.
    + destruct b; eauto.
    + destruct (negb (z =? 0)%Z); eauto.
    + destruct (Js.truthyStr str); eauto.
Qed.

Lemma resume_failure
    (selected : list EnrichmentField) (outcome : FetchOutcome) (s : State) :
  truthyShape outcome = None ->
  handleGenerateFields_resume generateVariableName selected outcome s
  = (((setIsGenerating false >> setPendingRequest None) s).1,
     [ConsoleError "Error generating fields:";
      ToastError "Failed to generate fields. Please try again."]).
Proof.
  intros Hshape. pose proof (convertResponse_truthyShape selected outcome) as H.
  rewrite Hshape in H. destruct H as [message H].
  unfold handleGenerateFields_resume. by rewrite H.
Qed.

Lemma resume_success
    (selected : list EnrichmentField) (outcome : FetchOutcome)
    (elements : list FieldDescriptor) (s : State) :
  truthyShape outcome = Some elements ->
  handleGenerateFields_resume generateVariableName selected outcome s
  = (((setSuggestedFields
        (List.map (convertField generateVariableName selected) elements) >>
      setShowNaturalLanguage false >> setNaturalLanguageInput "" >>
      setIsGenerating false >> setPendingRequest None) s).1, []).
Proof.
  intros Hshape. pose proof (convertResponse_truthyShape selected outcome) as H.
  rewrite Hshape in H. unfold handleGenerateFields_resume. by rewrite H.
Qed.

(** C4, as the code has it.  When the request is rejected, or answered with
    a non-OK status, or with a body that is not JSON, or with a payload in
    which [success] is falsy or [data.fields] is not an array, the handler
    logs the error and shows the toast "Failed to generate fields. Please
    try again."; selected fields, suggested fields, prompt and both panels
    are as before; the handler issues no further request, and none is left
    pending. *)
Theorem failed_generation_keeps_state
    (selected : list EnrichmentField) (outcome : FetchOutcome) (s : State) :
  truthyShape outcome = None ->
  let settled := handleGenerateFields_resume generateVariableName selected outcome s in
  settled.2 = [ConsoleError "Error generating fields:";
               ToastError "Failed to generate fields. Please try again."]
  /\ selectedFields settled.1 = selectedFields s
  /\ suggestedFields settled.1 = suggestedFields s
  /\ naturalLanguageInput settled.1 = naturalLanguageInput s
  /\ showNaturalLanguage settled.1 = showNaturalLanguage s
  /\ showManualAdd settled.1 = showManualAdd s
  /\ customField settled.1 = customField s
  /\ step settled.1 = step s
  /\ emailColumn settled.1 = emailColumn s
  /\ isGenerating settled.1 = false
  /\ pendingRequest settled.1 = None
  /\ (forall prompt, FetchGenerateFields prompt ∉ settled.2).
Proof.
  intros Hshape settled. subst settled. rewrite resume_failure by done. simpl.
  repeat split; try reflexivity.
  intros prompt Hin. repeat (apply elem_of_cons in Hin as [Hin|Hin]; [done|]).
  by apply elem_of_nil in Hin.
Qed.

(** C5, as the code has it.  Each descriptor of an accepted response
    becomes a suggested field that keeps the display name and the
    description, has type "string" when the reported type is "text" or
    "array" and the reported type otherwise, and is not required.  Its
    identifier is what the helper returns for the display name and the
    names of the fields that were selected when the request was sent; with
    a helper that never collides it is none of those names.  It is not
    unique: descriptors of one display name get one identifier.  When the
    request settles the suggestions are the conversions against that
    earlier selection, whatever has been selected since.  The response of
    the spec's example yields one suggested field of type "string". *)
Theorem generated_fields_are_converted :
  (forall (selected : list EnrichmentField) (d : FieldDescriptor),
      let f := convertField generateVariableName selected d in
      (apiType d = "text" -> type f = "string")
      /\ (apiType d = "array" -> type f = "string")
      /\ (apiType d <> "text" -> apiType d <> "array" -> type f = apiType d)
      /\ required f = false
      /\ displayName f = apiDisplayName d
      /\ description f = apiDescription d
      /\ name f = generateVariableName (apiDisplayName d) (List.map name selected)
      /\ (neverCollides generateVariableName -> name f ∉ List.map name selected))
  /\ (forall (selected : list EnrichmentField) (d1 d2 : FieldDescriptor),
         apiDisplayName d1 = apiDisplayName d2 ->
         name (convertField generateVariableName selected d1)
         = name (convertField generateVariableName selected d2))
  /\ (forall s : State,
         available s ClickGenerate = true ->
         pendingRequest (dispatch s ClickGenerate).1 = Some (selectedFields s))
  /\ (forall (s : State) (selected : list EnrichmentField) (outcome : FetchOutcome)
             (elements : list FieldDescriptor),
         pendingRequest s = Some selected ->
         truthyShape outcome = Some elements ->
         let settled := dispatch s (RequestSettled outcome) in
         suggestedFields settled.1
         = List.map (convertField generateVariableName selected) elements
         /\ settled.2 = [])
  /\ (forall (selected : list EnrichmentField) (text : string) (s : State),
         suggestedFields
           (handleGenerateFields_resume generateVariableName selected
              (FetchResolved true
                 (Some (JsObject
                    [("success", JsBool true);
                     ("data", JsObject
                        [("fields",
                          JsDescriptors [mkDescriptor "CEO Name" text "text"])])])))
              s).1
         = [mkField (generateVariableName "CEO Name" (List.map name selected))
                    "CEO Name" text "string" false]).
Proof.
  split_and!.
  - intros selected d f. subst f. unfold convertField. simpl.
    repeat split.
    + by intros ->.
    + by intros ->.
    + intros H1 H2. apply strictEq_false in H1, H2. by rewrite H1, H2.
    + intros Hgen. apply Hgen.
  - intros selected d1 d2 Hsame. unfold convertField. simpl. by rewrite Hsame.
  - intros s Hav. unfold View.dispatch. rewrite Hav. simpl.
    unfold View.available in Hav. destruct (step s); [done|].
    apply andb_true_iff in Hav as [_ Hav]. unfold generateDisabled in Hav.
    apply negb_true_iff, orb_false_elim in Hav as [Hprompt _].
    unfold handleGenerateFields. by rewrite Hprompt.
  - intros s selected outcome elements Hpending Hshape settled. subst settled.
    unfold View.dispatch, View.available, handlerOf. rewrite Hpending.
    rewrite bool_decide_eq_true_2 by eauto.
    by rewrite (resume_success _ _ elements).
  - intros selected text s.
    by rewrite (resume_success _ _ [mkDescriptor "CEO Name" text "text"]).
Qed.

(** *** Start, manual entry, detection, defaults *)

(** C6. On step 2 the "Start Enrichment" button is enabled exactly when the
    selected list is not empty; a click on the enabled button calls
    [onStartEnrichment] once, with the current email column and the
    current selected fields, and changes no state; a click on the disabled
    button calls nothing. *)
Theorem start_enrichment_button :
  (forall s : State,
      startEnrichmentDisabled s = false <-> selectedFields s <> [])
  /\ (forall s : State,
         step s = Step2 ->
         (available s ClickStartEnrichment = true <-> selectedFields s <> []))
  /\ (forall s : State,
         step s = Step2 -> selectedFields s <> [] ->
         dispatch s ClickStartEnrichment
         = (s, [OnStartEnrichment (emailColumn s) (selectedFields s)]))
  /\ (forall s : State,
         selectedFields s = [] -> dispatch s ClickStartEnrichment = (s, [])).
Proof.
  assert (Hdis : forall s, startEnrichmentDisabled s = false <-> selectedFields s <> []).
  { intros s. unfold startEnrichmentDisabled.
    destruct (selectedFields s); simpl; split; done. }
  split; [done|]. split; [|split].
  - intros s Hstep. unfold View.available. rewrite Hstep, negb_true_iff. apply Hdis.
  - intros s Hstep Hne. unfold View.dispatch, View.available.
    rewrite Hstep. apply Hdis in Hne. by rewrite Hne.
  - intros s Hnil. unfold View.dispatch, View.available, startEnrichmentDisabled.
    rewrite Hnil. by destruct (step s).
Qed.

Lemma validation_toast_not_from_dispatch (s : State) (e : Event) :
  ToastError "Please fill in all fields" ∉ (dispatch s e).2.
Proof.
  intros H. unfold View.dispatch in H.
  destruct (View.available rows columns s e) eqn:Hav;
    [|by apply elem_of_nil in H].
  destruct e; simpl in H;
    try (unfold_handlers; simpl in *; repeat case_match; simplify_eq/=;
         repeat (apply elem_of_cons in H as [H|H]; [discriminate|]);
         by apply elem_of_nil in H).
  unfold View.available in Hav. destruct (step s); [done|].
  apply andb_true_iff in Hav as [_ Hav]. apply negb_true_iff in Hav.
  unfold addFieldDisabled in Hav. unfold handleAddCustomField in H.
  rewrite Hav in H.
  unfold_handlers; simpl in *; repeat case_match; simplify_eq/=;
    repeat (apply elem_of_cons in H as [H|H]; [discriminate|]);
    by apply elem_of_nil in H.
Qed.

(** C7, as the code has it.  While the name or the description of the
    manual form is empty the "Add Field" button is disabled: a click on it
    changes nothing and shows nothing, so the selected list and the form
    stay as they are, and no session ever shows the toast "Please fill in
    all fields".  That toast is what [handleAddCustomField] answers, with
    the state unchanged, only when it is called on such a form itself. *)
Theorem manual_entry_requires_name_and_description :
  (forall s : State,
      customName (customField s) = "" \/ customDescription (customField s) = "" ->
      dispatch s ClickAddField = (s, []))
  /\ (forall events : list Event,
         ToastError "Please fill in all fields" ∉ (run initialState events).2)
  /\ (forall s : State,
         customName (customField s) = "" \/ customDescription (customField s) = "" ->
         handleAddCustomField generateVariableName s s
         = (s, [ToastError "Please fill in all fields"])).
Proof.
  assert (Hempty : forall s : State,
             customName (customField s) = "" \/ customDescription (customField s) = "" ->
             addFieldDisabled s = true).
  { intros s H. unfold addFieldDisabled.
    destruct H as [H|H]; apply truthyStr_false in H; rewrite H; simpl; [done|].
    by rewrite orb_true_r. }
  split_and!.
  - intros s H. unfold View.dispatch, View.available.
    rewrite (Hempty s H), andb_false_r. by destruct (step s).
  - intros events. generalize initialState.
    induction events as [|e events IH]; intros s Hin; simpl in Hin.
    + by apply elem_of_nil in Hin.
    + pose proof (validation_toast_not_from_dispatch s e) as Hstep.
      destruct (dispatch s e) as [s1 out1].
      pose proof (IH s1) as Hrest.
      destruct (run s1 events) as [s2 out2]. simpl in *.
      apply elem_of_app in Hin as [Hin|Hin]; [by apply Hstep | by apply Hrest].
  - intros s H. unfold handleAddCustomField.
    specialize (Hempty s H). unfold addFieldDisabled in Hempty. by rewrite Hempty.
Qed.

Lemma dispatch_step (s : State) (e : Event) :
  e <> ClickNext -> step s = Step1 -> step (dispatch s e).1 = Step1.
Proof.
  intros Hne Hstep. unfold View.dispatch.
  destruct (View.available _ _ s e) eqn:Hav; [|done].
  destruct e; try done;
    try (unfold View.available in Hav; rewrite Hstep in Hav; simpl in Hav;
         rewrite ?andb_false_r in Hav; discriminate);
    unfold_handlers; simpl; repeat case_match; simplify_eq/=; done.
Qed.

Lemma run_step (events : list Event) (s : State) :
  ClickNext ∉ events -> step s = Step1 -> step (run s events).1 = Step1.
Proof.
  revert s. induction events as [|e events IH]; intros s Hnot Hstep; simpl; [done|].
  apply not_elem_of_cons in Hnot as [Hne Hnot].
  pose proof (dispatch_step s e (not_eq_sym Hne) Hstep) as Hs1.
  destruct (dispatch s e) as [s1 out1]. specialize (IH s1 Hnot Hs1).
  by destruct (run s1 events) as [s2 out2].
Qed.

(** C8. Whatever the detector returns: when it names a non-empty column
    with confidence above 50, the effect that runs on mount fills the email
    column with that name and changes nothing else; the wizard is on step 1
    and stays there through any events that do not include a click on
    "Next".  When the confidence is 50 or less the effect changes nothing,
    so the selection is still empty. *)
Theorem detection_prefills_email_column :
  let detection := detectEmailColumn rows columns in
  let mounted := (dispatch initialState PropsEffect).1 in
  (forall col : string,
      columnName detection = Some col -> col <> "" ->
      (Qc_of_Z 50 < confidence detection)%Qc ->
      mounted = (setEmailColumn col initialState).1
      /\ emailColumn mounted = col
      /\ step mounted = Step1
      /\ (forall events, ClickNext ∉ events -> step (run mounted events).1 = Step1))
  /\ ((confidence detection <= Qc_of_Z 50)%Qc ->
      mounted = initialState /\ emailColumn mounted = "" /\ step mounted = Step1).
Proof.
  intros detection mounted. subst mounted.
  unfold View.dispatch, View.available, handlerOf, detectionEffect.
  fold detection. split.
  - intros col Hname Hcol Hc. rewrite Hname.
    apply truthyStr_true in Hcol. rewrite Hcol.
    rewrite bool_decide_eq_true_2 by done. simpl.
    split_and!; try reflexivity. intros events Hnot. by apply run_step.
  - intros Hc. destruct (columnName detection) as [col|]; [|done].
    rewrite bool_decide_eq_false_2; [|by apply Qcle_not_lt].
    by rewrite andb_false_r.
Qed.

Lemma initial_finds_succeed :
  mapM (fun n => findByName n PRESET_FIELDS)
       ["companyName"; "companyDescription"; "industry"]
  = Some defaultSelectedFields.
Proof. reflexivity. Qed.


(** *** The skip-list warning *)

Lemma commonDomains_plain (domain : string) :
  domain ∈ commonDomains ->
  Js.containsChar "@" domain = false /\ Js.truthyStr domain = true.
Proof.
  unfold commonDomains. intros H.
  repeat (apply elem_of_cons in H as [->|H]; [by split|]).
  by apply elem_of_nil in H.
Qed.

Lemma readCell_own (row : CSVRow) (col value : string) :
  readCell row col = OwnCell value <-> row !! col = Some value.
Proof.
  unfold readCell. destruct (row !! col) as [v|].
  - split; by intros [= ->].
  - split; [|done]. by destruct (Js.includes Js.objectPrototypeKeys col).
Qed.

Lemma readCell_missing (row : CSVRow) (col : string) :
  row !! col = None -> col ∉ Js.objectPrototypeKeys -> readCell row col = NoValue.
Proof.
  intros Hnone Hkey. unfold readCell. rewrite Hnone.
  destruct (Js.includes Js.objectPrototypeKeys col) eqn:E; [|done].
  by apply includes_true in E.
Qed.

Lemma isSkippable_true (col : string) (row : CSVRow) :
  isSkippable toLowerCase col row = Returned true
  <-> exists value loc domain rest,
        row !! col = Some value
        /\ toLowerCase value = loc +:+ String "@" (domain +:+ rest)
        /\ Js.containsChar "@" loc = false
        /\ domain ∈ commonDomains
        /\ (rest = "" \/ exists r, rest = String "@" r).
Proof.
  unfold isSkippable. split.
  - destruct (readCell row col) as [value| |] eqn:Hread; [|done|done].
    apply readCell_own in Hread.
    destruct (Js.truthyStr (toLowerCase value)); [|done]. cbn [negb].
    destruct (Js.split "@" (toLowerCase value) !! 1%nat) as [domain|] eqn:Hsplit;
      [|done].
    intros Hret.
    assert (H : Js.truthyStr domain && Js.includes commonDomains domain = true)
      by congruence.
    apply andb_true_iff in H as [_ H]. apply includes_true in H.
    apply split_second in Hsplit as (loc & rest & Hvalue & Hloc & _ & Hrest).
    by exists value, loc, domain, rest.
  - intros (value & loc & domain & rest & Hrow & Hvalue & Hloc & Hdomain & Hrest).
    apply readCell_own in Hrow. rewrite Hrow.
    destruct (commonDomains_plain domain Hdomain) as [Hplain Htruthy].
    assert (Hsplit : Js.split "@" (toLowerCase value) !! 1%nat = Some domain).
    { apply split_second. by exists loc, rest. }
    rewrite Hsplit, Htruthy.
    assert (Js.truthyStr (toLowerCase value) = true) as ->.
    { apply truthyStr_true. rewrite Hvalue. by destruct loc. }
    cbn [negb andb]. f_equal. by apply includes_true.
Qed.

Lemma isSkippable_returns (col : string) (row : CSVRow) :
  col ∉ Js.objectPrototypeKeys ->
  isSkippable toLowerCase col row
  = Returned (returnsTrue (isSkippable toLowerCase col row)).
Proof.
  intros Hkey. unfold isSkippable, readCell.
  destruct (row !! col) as [value|].
  - destruct (negb (Js.truthyStr (toLowerCase value))); [done|].
    destruct (Js.split "@" (toLowerCase value) !! 1%nat); [|done].
    by destruct (Js.truthyStr _ && _).
  - destruct (Js.includes Js.objectPrototypeKeys col) eqn:E; [|done].
    by apply includes_true in E.
Qed.

Lemma filterTry_returns (col : string) (table : list CSVRow) :
  col ∉ Js.objectPrototypeKeys ->
  filterTry (isSkippable toLowerCase col) table
  = Returned (List.filter (fun row => returnsTrue (isSkippable toLowerCase col row))
                          table).
Proof.
  intros Hkey. induction table as [|row table IH]; simpl; [done|].
  rewrite (isSkippable_returns col row Hkey), IH. simpl.
  by destruct (returnsTrue (isSkippable toLowerCase col row)).
Qed.

(** C9, as the code has it.  The check of a row returns [true] exactly when
    the row has a cell in the email column that, lowercased, reads as a
    text free of "@", then "@", then one of the six providers, then either
    nothing or a further "@" and anything: the domain is the piece that
    [split("@")] puts at index 1, so what follows a second "@" is ignored.
    A row with an empty cell is not counted, nor is a row without a cell
    when the column name is not one that plain objects inherit.  On step 1,
    with such a column chosen, the banner reports the number of rows whose
    check returns [true] and is absent when that number is 0.  With a
    [toLowerCase] that is ASCII lowercasing on ASCII strings, the two rows
    of the spec's example give the count 1. *)
Theorem skip_warning_counts_common_providers :
  (forall (col : string) (row : CSVRow),
      isSkippable toLowerCase col row = Returned true
      <-> exists value loc domain rest,
            row !! col = Some value
            /\ toLowerCase value = loc +:+ String "@" (domain +:+ rest)
            /\ Js.containsChar "@" loc = false
            /\ domain ∈ ["gmail.com"; "yahoo.com"; "hotmail.com";
                          "outlook.com"; "aol.com"; "icloud.com"]
            /\ (rest = "" \/ exists r, rest = String "@" r))
  /\ (forall (col : string) (row : CSVRow),
         row !! col = Some "" -> toLowerCase "" = "" ->
         isSkippable toLowerCase col row = Returned false)
  /\ (forall (col : string) (row : CSVRow),
         row !! col = None -> col ∉ Js.objectPrototypeKeys ->
         isSkippable toLowerCase col row = Returned false)
  /\ (forall s : State,
         step s = Step1 -> emailColumn s <> "" ->
         emailColumn s ∉ Js.objectPrototypeKeys ->
         let count :=
           List.length
             (List.filter
                (fun row => returnsTrue (isSkippable toLowerCase (emailColumn s) row))
                rows) in
         (count = 0%nat -> skipWarning toLowerCase rows s = Returned None)
         /\ (count <> 0%nat -> skipWarning toLowerCase rows s = Returned (Some count)))
  /\ (lowersAscii toLowerCase ->
      skipWarning toLowerCase
        [ {[ "email" := "a@gmail.com" ]}; {[ "email" := "b@acme.com" ]} ]
        (setEmailColumn "email" initialState).1
      = Returned (Some 1%nat)).
Proof.
  split; [apply isSkippable_true|]. split_and!.
  - intros col row Hrow Hlow. apply readCell_own in Hrow.
    unfold isSkippable. by rewrite Hrow, Hlow.
  - intros col row Hnone Hkey. unfold isSkippable.
    by rewrite readCell_missing.
  - intros s Hstep Hcol Hkey count. subst count.
    unfold skipWarning, skippableEmails.
    rewrite Hstep, filterTry_returns by done.
    apply truthyStr_true in Hcol. rewrite Hcol. simpl.
    split; intros H.
    + by rewrite H.
    + by apply Nat.eqb_neq in H as ->.
  - intros Hlow. unfold skipWarning, skippableEmails, filterTry, isSkippable.
    change (emailColumn (setEmailColumn "email" initialState).1) with "email".
    change (step (setEmailColumn "email" initialState).1) with Step1.
    assert (readCell {[ "email" := "a@gmail.com" ]} "email" = OwnCell "a@gmail.com")
      as -> by (by vm_compute).
    assert (readCell {[ "email" := "b@acme.com" ]} "email" = OwnCell "b@acme.com")
      as -> by (by vm_compute).
    rewrite (Hlow "a@gmail.com"), (Hlow "b@acme.com") by reflexivity.
    by vm_compute.
Qed.

End ComponentProperties.

(** ** The modelled helper and the session *)

Lemma generateVariableName_spec_neverCollides : neverCollides generateVariableName_spec.
Proof.
  intros display existing Hin. unfold generateVariableName_spec in Hin.
  apply (fresh_string_of_set_fresh (list_to_set existing) display).
  by apply elem_of_list_to_set.
Qed.

Lemma fullState_reachable :
  reachable generateVariableName_spec demoDetect demoRows demoColumns fullState.
Proof.
  exists fullSession. unfold fullState, demoRun. reflexivity.
Qed.

Lemma fullState_is_full : List.length (selectedFields fullState) = 10%nat.
Proof. by vm_compute. Qed.

Lemma demoDispatch_eq :
  demoDispatch = View.dispatch generateVariableName_spec demoDetect demoRows demoColumns.
Proof. reflexivity. Qed.

Lemma demoRun_eq :
  demoRun = View.run generateVariableName_spec demoDetect demoRows demoColumns.
Proof. reflexivity. Qed.

Lemma waitingState_eq :
  waitingState
  = (View.run generateVariableName_spec demoDetect demoRows demoColumns
       initialState (fillToTen ++ askForCeo)).1.
Proof. unfold waitingState, demoRun. reflexivity. Qed.

Lemma fullState_eq :
  fullState
  = (View.run generateVariableName_spec demoDetect demoRows demoColumns
       initialState fullSession).1.
Proof. unfold fullState, demoRun. reflexivity. Qed.

Lemma asciiLowerCase_lowersAscii : lowersAscii Js.asciiLowerCase.
Proof. by intros s _. Qed.

Lemma selected_fields_never_exceed_ten_witness :
  (List.length (selectedFields fullState) <= 10)%nat
  /\ (10 <= List.length (selectedFields fullState))%nat
  /\ handleAddField fullState ceoField fullState
     = (fullState, [ToastError "Maximum 10 fields allowed"]).
Proof.
  destruct (selected_fields_never_exceed_ten
              generateVariableName_spec demoDetect demoRows demoColumns)
    as [Hcap Hfull].
  split; [|split].
  - unfold fullState, demoRun. apply (Hcap fullSession).
  - rewrite fullState_is_full. lia.
  - apply Hfull. rewrite fullState_is_full. lia.
Defined.

Lemma selected_names_are_unique_witness :
  NoDup (names (selectedFields fullState))
  /\ selectedFields
       (handleAddField initialState
          (mkField "industry" "Sector" "The sector" "string" false) initialState).1
     = selectedFields initialState
  /\ generateVariableName_spec "Revenue" (names (selectedFields initialState))
     <> generateVariableName_spec "Revenue"
          (names (selectedFields
                    (submitManual generateVariableName_spec
                       (mkCustom "Revenue" "Annual revenue" "number")
                       initialState).1)).
Proof.
  destruct (selected_names_are_unique
              generateVariableName_spec demoDetect demoRows demoColumns)
    as (Hreach & Hdup & Hmanual).
  split; [|split].
  - apply Hreach, fullState_reachable.
  - apply Hdup. vm_compute. by repeat constructor.
  - refine (proj1 (proj2 (Hmanual generateVariableName_spec_neverCollides
                            initialState "Revenue" "Annual revenue" "number"
                            "Revenue last year" "number" _ _ _ _)));
      [done | done | done | vm_compute; lia].
Defined.

(** C3 as stated fails when the list is full: in the session above ten
    fields are selected and "CEO Name" is on offer; accepting it shows the
    capacity toast, the suggestion is gone, and the selected list is the
    same ten fields, "CEO Name" not among them. *)
Lemma accept_at_capacity_loses_suggestion :
  suggestedFields fullState !! 0%nat = Some ceoField
  /\ (demoDispatch fullState (ClickAccept 0)).2
     = [ToastError "Maximum 10 fields allowed"]
  /\ suggestedFields (demoDispatch fullState (ClickAccept 0)).1 = []
  /\ selectedFields (demoDispatch fullState (ClickAccept 0)).1
     = selectedFields fullState
  /\ name ceoField ∉ names (selectedFields (demoDispatch fullState (ClickAccept 0)).1).
Proof.
  split; [by vm_compute|]. split; [by vm_compute|]. split; [by vm_compute|].
  split; [by vm_compute|].
  intros Hin. vm_compute in Hin.
  repeat (apply elem_of_cons in Hin as [Hin|Hin]; [discriminate|]).
  by apply elem_of_nil in Hin.
Qed.

Lemma accept_and_reject_suggestion_witness :
  suggestedFields fullState !! 0%nat = Some ceoField
  /\ suggestedFields (onAcceptClick fullState 0 ceoField fullState).1
     = delete 0%nat (suggestedFields fullState)
  /\ selectedFields (onAcceptClick fullState 0 ceoField fullState).1
     = selectedFields fullState
  /\ selectedFields (onRejectClick fullState 0 fullState).1 = selectedFields fullState.
Proof.
  assert (Hoffer : suggestedFields fullState !! 0%nat = Some ceoField)
    by (by vm_compute).
  destruct (accept_and_reject_suggestion fullState 0 ceoField Hoffer)
    as (Hgone & _ & Hfull & _ & _ & _ & Hkept & _).
  split; [exact Hoffer|]. split; [exact Hgone|]. split; [|exact Hkept].
  apply Hfull. rewrite fullState_is_full. lia.
Defined.

(** C4 as stated fails for a payload whose [success] is truthy without
    being [true]: with the request of the session in flight, the payload
    [{success: 1, data: {fields: [...]}}] is not of the literal shape, yet
    no toast is shown, the suggestion is stored, the prompt is cleared and
    the panel is closed. *)
Lemma truthy_success_is_accepted :
  literalShape (responseWith (JsNumber 1) [ceoDescriptor]) = None
  /\ pendingRequest waitingState = Some (selectedFields waitingState)
  /\ (demoDispatch waitingState
        (RequestSettled (responseWith (JsNumber 1) [ceoDescriptor]))).2 = []
  /\ suggestedFields waitingState = []
  /\ suggestedFields
       (demoDispatch waitingState
          (RequestSettled (responseWith (JsNumber 1) [ceoDescriptor]))).1
     = [ceoField]
  /\ naturalLanguageInput waitingState = "CEO name"
  /\ naturalLanguageInput
       (demoDispatch waitingState
          (RequestSettled (responseWith (JsNumber 1) [ceoDescriptor]))).1 = ""
  /\ showNaturalLanguage waitingState = true
  /\ showNaturalLanguage
       (demoDispatch waitingState
          (RequestSettled (responseWith (JsNumber 1) [ceoDescriptor]))).1 = false.
Proof. split_and!; by vm_compute. Qed.

Lemma failed_generation_keeps_state_witness :
  truthyShape (FetchResolved false None) = None
  /\ (handleGenerateFields_resume generateVariableName_spec
        (selectedFields waitingState) (FetchResolved false None) waitingState).2
     = [ConsoleError "Error generating fields:";
        ToastError "Failed to generate fields. Please try again."]
  /\ naturalLanguageInput
       (handleGenerateFields_resume generateVariableName_spec
          (selectedFields waitingState) (FetchResolved false None) waitingState).1
     = naturalLanguageInput waitingState.
Proof.
  destruct (failed_generation_keeps_state generateVariableName_spec
              (selectedFields waitingState) (FetchResolved false None)
              waitingState eq_refl)
    as (Htoast & _ & _ & Hprompt & _).
  split; [reflexivity|]. split; [exact Htoast | exact Hprompt].
Defined.

(** C5 as stated fails: the identifier is not fresh.  In one session the
    user adds a field named "CEO Name" by hand while the request is in
    flight, and the suggestion that comes back carries the name of that
    selected field.  In the other a response holds two descriptors with the
    display name "CEO Name", and both suggestions carry one identifier. *)
Lemma suggested_identifiers_can_collide :
  names (suggestedFields (demoRun initialState staleSession).1) = ["CEO Name"]
  /\ "CEO Name" ∈ names (selectedFields (demoRun initialState staleSession).1)
  /\ names (suggestedFields
              (demoDispatch waitingState
                 (RequestSettled
                    (responseWith (JsBool true)
                       [ceoDescriptor; secondCeoDescriptor]))).1)
     = ["CEO Name"; "CEO Name"].
Proof.
  split_and!; [by vm_compute | | by vm_compute].
  vm_compute. by repeat constructor.
Qed.

Lemma generated_fields_are_converted_witness :
  type (convertField generateVariableName_spec (selectedFields waitingState)
          ceoDescriptor) = "string"
  /\ (name (convertField generateVariableName_spec (selectedFields waitingState)
              ceoDescriptor)
      ∉ List.map name (selectedFields waitingState))
  /\ pendingRequest waitingState = Some (selectedFields waitingState)
  /\ truthyShape (responseWith (JsBool true) [ceoDescriptor]) = Some [ceoDescriptor]
  /\ suggestedFields
       (demoDispatch waitingState
          (RequestSettled (responseWith (JsBool true) [ceoDescriptor]))).1
     = List.map (convertField generateVariableName_spec (selectedFields waitingState))
                [ceoDescriptor].
Proof.
  destruct (generated_fields_are_converted generateVariableName_spec demoDetect
              demoRows demoColumns)
    as (Hconv & _ & _ & Hsettled & _).
  destruct (Hconv (selectedFields waitingState) ceoDescriptor)
    as (Htext & _ & _ & _ & _ & _ & _ & Hfresh).
  assert (Hpending : pendingRequest waitingState = Some (selectedFields waitingState))
    by (by vm_compute).
  split; [apply Htext; reflexivity|].
  split; [apply Hfresh, generateVariableName_spec_neverCollides|].
  split; [exact Hpending|]. split; [reflexivity|].
  rewrite demoDispatch_eq.
  exact (proj1 (Hsettled waitingState (selectedFields waitingState)
                  (responseWith (JsBool true) [ceoDescriptor]) [ceoDescriptor]
                  Hpending eq_refl)).
Defined.

(** The spec's example for C6: the column "email" and two selected fields. *)
Lemma start_enrichment_button_witness :
  step (demoRun initialState [PropsEffect; ClickNext; ClickPreset 2]).1 = Step2
  /\ List.length
       (selectedFields (demoRun initialState [PropsEffect; ClickNext; ClickPreset 2]).1)
     = 2%nat
  /\ demoDispatch (demoRun initialState [PropsEffect; ClickNext; ClickPreset 2]).1
       ClickStartEnrichment
     = ((demoRun initialState [PropsEffect; ClickNext; ClickPreset 2]).1,
        [OnStartEnrichment "email" (take 2 PRESET_FIELDS)]).
Proof.
  destruct (start_enrichment_button
              generateVariableName_spec demoDetect demoRows demoColumns)
    as (_ & _ & Hclick & _).
  split; [by vm_compute|]. split; [by vm_compute|].
  unfold demoDispatch. rewrite Hclick; [by vm_compute | by vm_compute |].
  vm_compute. discriminate.
Defined.

(** C7 as stated fails: no validation error is shown.  The user opens the
    manual form and types the name "Revenue" but no description; the "Add
    Field" button is disabled, and a click on it shows no toast and leaves
    the state as it is. *)
Lemma half_filled_form_shows_no_toast :
  step (demoRun initialState halfFilledForm).1 = Step2
  /\ showManualAdd (demoRun initialState halfFilledForm).1 = true
  /\ customName (customField (demoRun initialState halfFilledForm).1) = "Revenue"
  /\ customDescription (customField (demoRun initialState halfFilledForm).1) = ""
  /\ demoDispatch (demoRun initialState halfFilledForm).1 ClickAddField
     = ((demoRun initialState halfFilledForm).1, []).
Proof. split_and!; by vm_compute. Qed.

Lemma manual_entry_requires_name_and_description_witness :
  customDescription
    (customField
       (setCustomField (mkCustom "Revenue" "" "string")
          (setShowManualAdd true (setStep Step2 initialState).1).1).1) = ""
  /\ demoDispatch
       (setCustomField (mkCustom "Revenue" "" "string")
          (setShowManualAdd true (setStep Step2 initialState).1).1).1
       ClickAddField
     = ((setCustomField (mkCustom "Revenue" "" "string")
           (setShowManualAdd true (setStep Step2 initialState).1).1).1, [])
  /\ handleAddCustomField generateVariableName_spec
       (setCustomField (mkCustom "Revenue" "" "string") initialState).1
       (setCustomField (mkCustom "Revenue" "" "string") initialState).1
     = ((setCustomField (mkCustom "Revenue" "" "string") initialState).1,
        [ToastError "Please fill in all fields"]).
Proof.
  destruct (manual_entry_requires_name_and_description generateVariableName_spec
              demoDetect demoRows demoColumns)
    as (Hclick & _ & Hcall).
  split; [reflexivity|]. split.
  - rewrite demoDispatch_eq. apply Hclick. right. reflexivity.
  - apply Hcall. right. reflexivity.
Defined.

Lemma detection_prefills_email_column_witness :
  demoDetect demoRows demoColumns = mkDetection (Some "email") (Qc_of_Z 80)
  /\ emailColumn (demoDispatch initialState PropsEffect).1 = "email"
  /\ step (demoDispatch initialState PropsEffect).1 = Step1.
Proof.
  destruct (detection_prefills_email_column generateVariableName_spec demoDetect
              demoRows demoColumns)
    as [Habove _].
  destruct (Habove "email") as (_ & Hcol & Hstep & _);
    [reflexivity | discriminate | by apply Z2Qc_inj_lt |].
  split; [reflexivity|]. split; [exact Hcol | exact Hstep].
Defined.

(** C9 as stated fails for an email with a second "@": in
    "a@gmail.com@evil.org" what follows the first "@" is
    "gmail.com@evil.org", which is no provider, yet the row is counted,
    because the code compares the piece between the first "@" and the
    second.  (The email is ASCII, so its lowercasing is the same on every
    host.) *)
Lemma text_after_second_at_is_ignored :
  twoAtRow !! "email" = Some "a@gmail.com@evil.org"
  /\ afterFirstAt (Js.asciiLowerCase "a@gmail.com@evil.org")
     = Some "gmail.com@evil.org"
  /\ countedByFirstAt Js.asciiLowerCase "email" twoAtRow = false
  /\ isSkippable Js.asciiLowerCase "email" twoAtRow = Returned true
  /\ skipWarning Js.asciiLowerCase [twoAtRow] (setEmailColumn "email" initialState).1
     = Returned (Some 1%nat).
Proof. split_and!; by vm_compute. Qed.

Lemma skip_warning_counts_common_providers_witness :
  isSkippable Js.asciiLowerCase "email" {[ "email" := "Ann@Gmail.com" ]}
  = Returned true
  /\ (exists value loc domain rest,
         ({[ "email" := "Ann@Gmail.com" ]} : CSVRow) !! "email" = Some value
         /\ Js.asciiLowerCase value = loc +:+ String "@" (domain +:+ rest)
         /\ Js.containsChar "@" loc = false
         /\ domain ∈ ["gmail.com"; "yahoo.com"; "hotmail.com";
                       "outlook.com"; "aol.com"; "icloud.com"]
         /\ (rest = "" \/ exists r, rest = String "@" r))
  /\ lowersAscii Js.asciiLowerCase
  /\ skipWarning Js.asciiLowerCase
       [ {[ "email" := "a@gmail.com" ]}; {[ "email" := "b@acme.com" ]} ]
       (setEmailColumn "email" initialState).1
     = Returned (Some 1%nat).
Proof.
  destruct (skip_warning_counts_common_providers Js.asciiLowerCase demoRows)
    as (Hrow & _ & _ & _ & Hexample).
  assert (Hcounted : isSkippable Js.asciiLowerCase "email"
                       {[ "email" := "Ann@Gmail.com" ]} = Returned true)
    by (by vm_compute).
  split; [exact Hcounted|]. split; [by apply Hrow|].
  split; [exact asciiLowerCase_lowersAscii|].
  exact (Hexample asciiLowerCase_lowersAscii).
Defined.


(** * Further properties of the component *)

(** ** White space and [trim] *)

Lemma string_length_ind (P : string -> Prop) :
  (forall s, (forall t, (String.length t < String.length s)%nat -> P t) -> P s) ->
  forall s, P s.
Proof.
  intros H s. remember (String.length s) as n eqn:Hn. revert s Hn.
  induction n as [n IH] using lt_wf_ind. intros s ->.
  apply H. intros t Hlt. by apply (IH _ Hlt).
Qed.

Lemma revString_append (s acc : string) :
  Js.revString s acc = Js.revString s "" +:+ acc.
Proof.
  revert acc. induction s as [|c s IH]; intros acc; simpl; [done|].
  rewrite (IH (String c acc)), (IH (String c "")).
  generalize (Js.revString s ""). intros r.
  induction r as [|d r IHr]; [done | by rewrite !append_cons, IHr].
Qed.

Lemma revString_of_append (s t acc : string) :
  Js.revString (s +:+ t) acc = Js.revString t (Js.revString s acc).
Proof.
  revert acc. induction s as [|c s IH]; intros acc; [done|].
  rewrite append_cons. simpl. apply IH.
Qed.

Lemma revString_involutive (s : string) :
  Js.revString (Js.revString s "") "" = s.
Proof.
  induction s as [|c s IH]; simpl; [done|].
  rewrite (revString_append s (String c "")), revString_of_append. simpl.
  by rewrite IH.
Qed.

Lemma revString_empty (s : string) :
  Js.revString s "" = "" <-> s = "".
Proof.
  split; [|by intros ->]. intros H.
  rewrite <- (revString_involutive s), H. done.
Qed.

Lemma append_empty_l (s : string) : "" +:+ s = s.
Proof. reflexivity. Qed.

Section TrimLeading.

Variable w1 : ascii -> bool.
Variable w2 : ascii -> ascii -> bool.
Variable w3 : ascii -> ascii -> ascii -> bool.

Local Abbreviation trimL := (Js.trimLeading w1 w2 w3).
Local Abbreviation leads := (leadsWithWhiteSpace w1 w2 w3).

(** What [trimLeading] returns is the string without a prefix. *)
Lemma trimLeading_suffix (s : string) : exists p, s = p +:+ trimL s.
Proof.
  induction s as [s IH] using string_length_ind.
  destruct s as [|a s1]; [by exists ""|]. simpl.
  destruct (w1 a).
  { destruct (IH s1) as [p Hp]; [simpl; lia|].
    exists (String a p). rewrite append_cons. by f_equal. }
  destruct s1 as [|b s2]; [by exists ""|].
  destruct (w2 a b).
  { destruct (IH s2) as [p Hp]; [simpl; lia|].
    exists (String a (String b p)). rewrite !append_cons. by do 2 f_equal. }
  destruct s2 as [|c s3]; [by exists ""|].
  destruct (w3 a b c); [|by exists ""].
  destruct (IH s3) as [p Hp]; [simpl; lia|].
  exists (String a (String b (String c p))). rewrite !append_cons. by do 3 f_equal.
Qed.

(** It leaves no white space at the front, and changes nothing when there
    is none. *)
Lemma leads_trimLeading (s : string) : leads (trimL s) = false.
Proof.
  induction s as [s IH] using string_length_ind.
  destruct s as [|a s1]; [done|]. simpl.
  destruct (w1 a) eqn:E1; [apply IH; simpl; lia|].
  destruct s1 as [|b s2]; [simpl; by rewrite E1|].
  destruct (w2 a b) eqn:E2; [apply IH; simpl; lia|].
  destruct s2 as [|c s3]; [simpl; by rewrite E1, E2|].
  destruct (w3 a b c) eqn:E3; [apply IH; simpl; lia|].
  simpl. by rewrite E1, E2, E3.
Qed.

Lemma trimLeading_clean (s : string) : leads s = false -> trimL s = s.
Proof.
  destruct s as [|a s1]; [done|]. simpl. intros H.
  apply orb_false_elim in H as [-> H].
  destruct s1 as [|b s2]; [done|]. apply orb_false_elim in H as [-> H].
  destruct s2 as [|c s3]; [done|]. by rewrite H.
Qed.

Lemma leads_append (s t : string) : leads s = true -> leads (s +:+ t) = true.
Proof.
  destruct s as [|a s1]; [done|]. rewrite append_cons. simpl.
  destruct (w1 a); [done|]. simpl.
  destruct s1 as [|b s2]; [done|]. rewrite append_cons.
  destruct (w2 a b); [done|]. simpl.
  destruct s2 as [|c s3]; [done|]. by rewrite append_cons.
Qed.

(** A string that [trimLeading] consumes from its end backwards either is
    empty or begins with white space. *)
Lemma trimLeading_reversed_empty (r : string) :
  Js.trimLeading w1 (fun a b => w2 b a) (fun a b c => w3 c b a) r = "" ->
  r = "" \/ leads (Js.revString r "") = true.
Proof.
  induction r as [r IH] using string_length_ind.
  destruct r as [|a r1]; [by left|]. simpl. intros H. right.
  assert (Hsnoc : forall tail front,
             Js.trimLeading w1 (fun a b => w2 b a) (fun a b c => w3 c b a) tail = "" ->
             (String.length tail < String.length (String a r1))%nat ->
             leads front = true ->
             leads (Js.revString tail "" +:+ front) = true).
  { intros tail front Htail Hlt Hfront.
    destruct (IH tail Hlt Htail) as [->|Hlead]; [done|]. by apply leads_append. }
  destruct (w1 a) eqn:E1.
  { rewrite (revString_append r1 (String a "")).
    apply Hsnoc; [done | simpl; lia | simpl; by rewrite E1]. }
  destruct r1 as [|b r2]; [done|].
  destruct (w2 b a) eqn:E2.
  { simpl. rewrite (revString_append r2 (String b (String a ""))).
    apply Hsnoc; [done | simpl; lia | simpl; rewrite E2; apply orb_true_r]. }
  destruct r2 as [|c r3]; [done|].
  destruct (w3 c b a) eqn:E3; [|done].
  simpl. rewrite (revString_append r3 (String c (String b (String a "")))).
  apply Hsnoc; [done | simpl; lia | simpl; rewrite E3; by rewrite !orb_true_r].
Qed.

End TrimLeading.

Lemma trimStart_empty (s : string) :
  Js.trimStart s = "" <-> isBlank s = true.
Proof.
  unfold Js.trimStart.
  induction s as [s IH] using string_length_ind.
  destruct s as [|a s1]; [done|]. simpl.
  destruct (Js.isWhiteSpace a); [apply IH; simpl; lia|].
  destruct s1 as [|b s2]; [done|].
  destruct (Js.isWhiteSpace2 a b); [apply IH; simpl; lia|].
  destruct s2 as [|c s3]; [done|].
  destruct (Js.isWhiteSpace3 a b c); simpl; [apply IH; simpl; lia | done].
Qed.

Lemma startsWithWhiteSpace_trimStart (s : string) :
  startsWithWhiteSpace (Js.trimStart s) = false.
Proof. apply leads_trimLeading. Qed.

Lemma trimEnd_empty (t : string) :
  startsWithWhiteSpace t = false -> Js.trimEnd t = "" -> t = "".
Proof.
  intros Hclean H. unfold Js.trimEnd in H.
  apply (proj1 (revString_empty _)) in H.
  apply (trimLeading_reversed_empty Js.isWhiteSpace Js.isWhiteSpace2 Js.isWhiteSpace3)
    in H as [H|H].
  - by apply (proj1 (revString_empty _)) in H.
  - rewrite revString_involutive in H. unfold startsWithWhiteSpace in Hclean.
    congruence.
Qed.

(** [trim] empties exactly the strings of white space. *)
Lemma trim_empty (s : string) :
  Js.trim s = "" <-> isBlank s = true.
Proof.
  unfold Js.trim. split.
  - intros H. apply trimStart_empty.
    by apply trimEnd_empty; [apply startsWithWhiteSpace_trimStart|].
  - intros H. apply trimStart_empty in H. by rewrite H.
Qed.

Lemma truthy_trim (s : string) :
  Js.truthyStr (Js.trim s) = negb (isBlank s).
Proof.
  destruct (isBlank s) eqn:E; simpl.
  - apply truthyStr_false. by apply trim_empty.
  - apply truthyStr_true. intros H. apply trim_empty in H. congruence.
Qed.

(** What [trim] returns has no white space at either end, so trimming it
    again changes nothing. *)
Lemma trim_clean_ends (s : string) :
  startsWithWhiteSpace (Js.trim s) = false
  /\ endsWithWhiteSpace (Js.trim s) = false.
Proof.
  unfold Js.trim, Js.trimEnd, endsWithWhiteSpace, startsWithWhiteSpace.
  set (t := Js.trimStart s).
  set (kept := Js.trimLeading _ _ _ (Js.revString t "")).
  split.
  - destruct (leadsWithWhiteSpace Js.isWhiteSpace Js.isWhiteSpace2 Js.isWhiteSpace3
                (Js.revString kept "")) eqn:E; [|done].
    destruct (trimLeading_suffix Js.isWhiteSpace (fun a b => Js.isWhiteSpace2 b a)
                (fun a b c => Js.isWhiteSpace3 c b a) (Js.revString t ""))
      as [p Hp].
    fold kept in Hp.
    assert (Ht : t = Js.revString kept "" +:+ Js.revString p "").
    { rewrite <- (revString_involutive t), Hp, revString_of_append.
      by rewrite revString_append. }
    pose proof (startsWithWhiteSpace_trimStart s) as Hclean. fold t in Hclean.
    unfold startsWithWhiteSpace in Hclean. rewrite Ht in Hclean.
    by rewrite leads_append in Hclean.
  - rewrite revString_involutive. apply leads_trimLeading.
Qed.

Lemma trim_idempotent (s : string) : Js.trim (Js.trim s) = Js.trim s.
Proof.
  destruct (trim_clean_ends s) as [Hstart Hend].
  unfold Js.trim at 1. unfold Js.trimStart.
  rewrite trimLeading_clean by exact Hstart.
  unfold Js.trimEnd. rewrite trimLeading_clean by exact Hend.
  apply revString_involutive.
Qed.

(** ** Lists of fields *)

Lemma filter_sublist {A} (p : A -> bool) (l : list A) :
  sublist (List.filter p l) l.
Proof.
  induction l as [|x l IH]; simpl; [constructor|].
  destruct (p x); by constructor.
Qed.

Lemma elem_of_filter_bool {A} (p : A -> bool) (l : list A) (x : A) :
  x ∈ List.filter p l <-> x ∈ l /\ p x = true.
Proof. rewrite !list_elem_of_In. apply filter_In. Qed.

Lemma filter_name_absent (n : string) (l : list EnrichmentField) :
  n ∉ names l ->
  List.filter (fun f => negb (Js.strictEq (name f) n)) l = l.
Proof.
  unfold names. induction l as [|f l IH]; simpl; [done|].
  intros H. apply not_elem_of_cons in H as [Hne H].
  apply not_eq_sym, strictEq_false in Hne. rewrite Hne. simpl. by rewrite IH.
Qed.

Lemma filter_name_once (n : string) (l : list EnrichmentField) :
  NoDup (names l) -> n ∈ names l ->
  S (List.length (List.filter (fun f => negb (Js.strictEq (name f) n)) l))
  = List.length l.
Proof.
  unfold names. induction l as [|f l IH]; simpl.
  - intros _ H. by apply elem_of_nil in H.
  - intros Hnd Hin. apply NoDup_cons in Hnd as [Hfresh Hnd].
    destruct (Js.strictEq (name f) n) eqn:E; simpl.
    + apply strictEq_true in E. subst n.
      by rewrite (filter_name_absent (name f) l).
    + apply strictEq_false in E. apply elem_of_cons in Hin as [Heq|Hin]; [congruence|].
      by rewrite IH.
Qed.

Lemma filter_name_appended (f : EnrichmentField) (l : list EnrichmentField) :
  name f ∉ names l ->
  List.filter (fun g => negb (Js.strictEq (name g) (name f))) (l ++ [f]) = l.
Proof.
  intros H. rewrite List.filter_app, filter_name_absent by done. simpl.
  assert (Js.strictEq (name f) (name f) = true) as -> by (by apply strictEq_true).
  simpl. apply app_nil_r.
Qed.

Lemma state_eta (s : State) :
  mkState (step s) (emailColumn s) (selectedFields s) (showManualAdd s)
    (showNaturalLanguage s) (naturalLanguageInput s) (suggestedFields s)
    (isGenerating s) (showAllRows s) (showEmailDropdown s)
    (showEmailDropdownStep1 s) (customField s) (pendingRequest s) = s.
Proof. by destruct s. Qed.

Lemma isSelected_true (s : State) (field : EnrichmentField) :
  isSelected s field = true <-> name field ∈ names (selectedFields s).
Proof.
  unfold isSelected. rewrite bool_decide_eq_true. apply findByName_is_Some.
Qed.

Lemma isSelected_false (s : State) (field : EnrichmentField) :
  isSelected s field = false <-> name field ∉ names (selectedFields s).
Proof.
  unfold isSelected. rewrite bool_decide_eq_false. by rewrite findByName_is_Some.
Qed.

Lemma filterTry_length {A} (p : A -> Try bool) (xs kept : list A) :
  filterTry p xs = Returned kept -> (List.length kept <= List.length xs)%nat.
Proof.
  revert kept. induction xs as [|x xs IH]; intros kept; simpl.
  - by intros [= <-].
  - destruct (p x) as [keep|]; [|done]. simpl.
    destruct (filterTry p xs) as [rest|]; [|done]. simpl.
    specialize (IH rest eq_refl).
    destruct keep; intros [= <-]; simpl; lia.
Qed.

Section FurtherProperties.

Variable generateVariableName : string -> list string -> string.
Variable detectEmailColumn : list CSVRow -> list string -> Detection.
Variable toLowerCase : string -> string.
Variable rows : list CSVRow.
Variable columns : list string.
Variable EMAIL_REGEX_test : string -> bool.

Local Abbreviation dispatch :=
  (View.dispatch generateVariableName detectEmailColumn rows columns).
Local Abbreviation run :=
  (View.run generateVariableName detectEmailColumn rows columns).
Local Abbreviation reachable :=
  (View.reachable generateVariableName detectEmailColumn rows columns).

Ltac unfold_all :=
  unfold View.dispatch, handlerOf, View.available, detectionEffect,
    onEmailColumnChange, onPresetClick, onAcceptClick, onRejectClick,
    onStartEnrichmentClick, onCopyClick, handleAddCustomField,
    handleGenerateFields, handleGenerateFields_resume, handleAddField,
    handleRemoveField, presetDisabled, nextDisabled, generateDisabled,
    addFieldDisabled, startEnrichmentDisabled, andThen, toast_error,
    toast_success, console_error, perform, skip, setStep, setEmailColumn,
    setSelectedFields, setShowManualAdd, setShowNaturalLanguage,
    setNaturalLanguageInput, setSuggestedFields, setIsGenerating,
    setShowAllRows, setShowEmailDropdown, setShowEmailDropdownStep1,
    setCustomField, setPendingRequest in *.

Ltac crunch := unfold_all; simpl in *; repeat case_match; simplify_eq/=.

Ltac no_such_effect H :=
  repeat (apply elem_of_cons in H as [H|H]; [discriminate|]);
  by apply elem_of_nil in H.

(** X1. [handleRemoveField] drops every field of the given name and nothing
    else: the name is gone, the other fields stay in their order, no effect
    is performed; a name that is not selected leaves the list as it is;
    and where the names are distinct, removing a selected name shortens
    the list by exactly one. *)
Theorem remove_field_drops_the_name (s : State) (n : string) :
  let removed := handleRemoveField s n s in
  removed.2 = []
  /\ (n ∉ names (selectedFields removed.1))
  /\ (forall f, f ∈ selectedFields removed.1 <-> f ∈ selectedFields s /\ name f <> n)
  /\ sublist (selectedFields removed.1) (selectedFields s)
  /\ (n ∉ names (selectedFields s) -> removed.1 = s)
  /\ (NoDup (names (selectedFields s)) -> n ∈ names (selectedFields s) ->
      S (List.length (selectedFields removed.1)) = List.length (selectedFields s)).
Proof.
  intros removed. subst removed. unfold handleRemoveField, setSelectedFields.
  simpl. split_and!.
  - done.
  - rewrite names_filter. intros H. apply elem_of_filter_bool in H as [_ H].
    apply negb_true_iff, strictEq_false in H. done.
  - intros f. rewrite elem_of_filter_bool, negb_true_iff. by rewrite strictEq_false.
  - apply filter_sublist.
  - intros H. rewrite filter_name_absent by done. apply state_eta.
  - apply filter_name_once.
Qed.

(** X2. Toggling a preset twice is a round trip: on step 2, with room left,
    a click on a preset that is not selected appends it, and a second click
    removes it again and gives back the very state the first click
    started from; neither click performs an effect. *)
Theorem preset_toggle_round_trip (s : State) (index : nat) (field : EnrichmentField) :
  step s = Step2 ->
  PRESET_FIELDS !! index = Some field ->
  name field ∉ names (selectedFields s) ->
  (List.length (selectedFields s) < 10)%nat ->
  let added := dispatch s (ClickPreset index) in
  let removed := dispatch added.1 (ClickPreset index) in
  selectedFields added.1 = selectedFields s ++ [field]
  /\ added.2 = []
  /\ removed = (s, []).
Proof.
  intros Hstep Hidx Hfresh Hroom added removed.
  assert (Hadded : added = ((setSelectedFields (selectedFields s ++ [field]) s).1, [])).
  { subst added. unfold View.dispatch, View.available, handlerOf, presetDisabled.
    rewrite Hstep, Hidx. apply isSelected_false in Hfresh as Hsel.
    unfold onPresetClick. rewrite Hsel.
    destruct (Nat.leb_spec 10 (List.length (selectedFields s))); [lia|]. simpl.
    by apply handleAddField_fresh. }
  subst removed. rewrite Hadded. simpl. split_and!; try done.
  set (s1 := mkState _ _ _ _ _ _ _ _ _ _ _ _ _).
  assert (Hsel1 : isSelected s1 field = true).
  { apply isSelected_true. simpl. unfold names. rewrite map_app. simpl.
    apply elem_of_app. right. by apply list_elem_of_singleton. }
  unfold View.dispatch, View.available, handlerOf, presetDisabled, onPresetClick.
  change (step s1) with (step s). rewrite Hstep, Hidx, Hsel1, andb_false_r. simpl.
  unfold handleRemoveField, setSelectedFields. simpl.
  rewrite filter_name_appended by done. by rewrite state_eta.
Qed.

(** X3. The preview shows the last five selected fields: [visibleFields] is
    the tail of the selected list of length min(5, n); the "+N more" header
    appears exactly when more than five are selected, N counts the fields
    that are not shown, and without that header every selected field is
    shown.  On step 1 no field column is shown at all. *)
Theorem preview_shows_last_five_fields (s : State) :
  List.length (visibleFields s) = Nat.min 5 (List.length (selectedFields s))
  /\ selectedFields s
     = take (List.length (selectedFields s) - 5) (selectedFields s) ++ visibleFields s
  /\ (step s = Step1 -> previewColumns s = [] /\ moreFieldsLabel s = None)
  /\ (step s = Step2 ->
      (forall k, moreFieldsLabel s = Some k ->
                 (0 < k)%nat
                 /\ (k + List.length (previewColumns s))%nat
                    = List.length (selectedFields s)
                 /\ List.length (previewColumns s) = 5%nat)
      /\ (moreFieldsLabel s = None -> previewColumns s = selectedFields s)
      /\ (is_Some (moreFieldsLabel s) <-> (5 < List.length (selectedFields s))%nat)).
Proof.
  unfold visibleFields, previewColumns, moreFieldsLabel, maxVisibleFields.
  split_and!.
  - rewrite length_drop. lia.
  - by rewrite take_drop.
  - by intros ->.
  - intros ->. unfold visibleFields, maxVisibleFields.
    destruct (Nat.ltb_spec 5 (List.length (selectedFields s))) as [Hgt|Hle].
    + split_and!.
      * intros k [= <-]. rewrite length_drop. lia.
      * done.
      * split; [done | by eauto].
    + split_and!.
      * done.
      * intros _. replace (List.length (selectedFields s) - 5)%nat with 0%nat by lia.
        done.
      * split; [by intros [? ?] | lia].
Qed.

(** X4. The table shows a prefix of the rows: all of them when expanded,
    the first min(3, n) when collapsed.  The "Show N more rows" button is
    there exactly when the table is collapsed and has more than three
    rows, N is the number of rows not shown, and a click on it shows every
    row; "Show less" goes back to the collapsed table. *)
Theorem table_shows_three_rows_until_expanded (s : State) :
  displayRows rows s `prefix_of` rows
  /\ (showAllRows s = true -> displayRows rows s = rows)
  /\ (showAllRows s = false ->
      List.length (displayRows rows s) = Nat.min 3 (List.length rows))
  /\ ((List.length rows <= 3)%nat ->
      displayRows rows s = rows /\ moreRowsLabel rows s = None)
  /\ (forall k, moreRowsLabel rows s = Some k ->
                let expanded := (dispatch s ClickShowMoreRows).1 in
                (0 < k)%nat
                /\ (k + List.length (displayRows rows s))%nat = List.length rows
                /\ displayRows rows expanded = rows
                /\ moreRowsLabel rows expanded = None
                /\ dispatch expanded ClickShowLess = (s, [])).
Proof.
  unfold displayRows, moreRowsLabel. split_and!.
  - destruct (showAllRows s); [done | apply prefix_take].
  - by intros ->.
  - intros ->. rewrite length_take. lia.
  - intros Hle. split.
    + destruct (showAllRows s); [done | by rewrite take_ge by lia].
    + destruct (Nat.ltb_spec 3 (List.length rows)); [lia|]. by rewrite andb_false_r.
  - intros k Hk.
    destruct (showAllRows s) eqn:Hshow; [done|]. simpl in Hk.
    destruct (Nat.ltb_spec 3 (List.length rows)) as [Hgt|]; [|done].
    apply (inj Some) in Hk. subst k.
    unfold View.dispatch, View.available, handlerOf, setShowAllRows.
    rewrite Hshow. simpl. destruct (Nat.ltb_spec 3 (List.length rows)); [|lia].
    simpl. split_and!; try done.
    + lia.
    + rewrite length_take. lia.
    + by rewrite <- Hshow, state_eta.
Qed.

(** X5. A prompt of white space only is ignored: [handleGenerateFields]
    returns the state as it is and sends nothing.  Any other prompt sends
    exactly one request, carrying the prompt as typed (not trimmed), and
    sets [isGenerating]; selected fields, suggestions, prompt and panel are
    untouched until the request settles. *)
Theorem generate_ignores_blank_prompt (s : State) :
  let started := handleGenerateFields s s in
  (isBlank (naturalLanguageInput s) = true -> started = (s, []))
  /\ (isBlank (naturalLanguageInput s) = false ->
      started.2 = [FetchGenerateFields (naturalLanguageInput s)]
      /\ isGenerating started.1 = true
      /\ pendingRequest started.1 = Some (selectedFields s)
      /\ selectedFields started.1 = selectedFields s
      /\ suggestedFields started.1 = suggestedFields s
      /\ naturalLanguageInput started.1 = naturalLanguageInput s
      /\ showNaturalLanguage started.1 = showNaturalLanguage s).
Proof.
  intros started. subst started. unfold handleGenerateFields.
  rewrite truthy_trim, negb_involutive.
  split; intros ->; [done|]. by split_and!.
Qed.

Lemma dispatch_generatingMatchesRequest (s : State) (e : Event) :
  generatingMatchesRequest s -> generatingMatchesRequest (dispatch s e).1.
Proof.
  unfold generatingMatchesRequest. intros H.
  destruct e; crunch; try done;
    try (split; [done | by intros [? ?]]);
    try (split; [done | by eauto]).
Qed.

Lemma run_generatingMatchesRequest (events : list Event) (s : State) :
  generatingMatchesRequest s -> generatingMatchesRequest (run s events).1.
Proof.
  revert s. induction events as [|e events IH]; intros s Hs; simpl; [done|].
  pose proof (dispatch_generatingMatchesRequest s e Hs) as Hstep.
  destruct (dispatch s e) as [s1 out1]. specialize (IH s1 Hstep).
  by destruct (run s1 events) as [s2 out2].
Qed.

Lemma fetch_only_from_generate (s : State) (e : Event) (prompt : string) :
  FetchGenerateFields prompt ∈ (dispatch s e).2 ->
  e = ClickGenerate /\ isGenerating s = false /\ prompt = naturalLanguageInput s.
Proof.
  intros H. destruct e; crunch; try no_such_effect H.
  apply elem_of_cons in H as [H|H]; [|by apply elem_of_nil in H].
  injection H as ->. split_and!; try done.
  match goal with Hd : _ && negb (isGenerating s) = true |- _ =>
    apply andb_true_iff in Hd as [_ Hd]; by apply negb_true_iff in Hd end.
Qed.

(** X6. At most one request is in flight.  In every state a session can
    reach, [isGenerating] is set exactly while a request is pending, and
    while it is pending no event whatever sends another request: the
    "Generate Fields" button is disabled until the request has settled. *)
Theorem no_second_request_while_generating (events : list Event) :
  let s := (run initialState events).1 in
  (isGenerating s = true <-> is_Some (pendingRequest s))
  /\ (is_Some (pendingRequest s) ->
      forall (e : Event) (prompt : string),
        FetchGenerateFields prompt ∉ (dispatch s e).2).
Proof.
  intros s.
  assert (Hinv : generatingMatchesRequest s).
  { apply run_generatingMatchesRequest. split; [done | by intros [? ?]]. }
  split; [exact Hinv|].
  intros Hpending e prompt Hfetch.
  apply fetch_only_from_generate in Hfetch as (_ & Hidle & _).
  apply Hinv in Hpending. congruence.
Qed.

(** X7. However the request ends, the [finally] of [handleGenerateFields]
    resets [isGenerating], and the handler leaves the selected fields, the
    step, the email column, the manual form and the table untouched; it
    either performs no effect (success) or logs and shows the one error
    toast, and it never sends a request or starts the enrichment. *)
Theorem settled_request_resets_generating
    (selected : list EnrichmentField) (outcome : FetchOutcome) (s : State) :
  let settled := handleGenerateFields_resume generateVariableName selected outcome s in
  isGenerating settled.1 = false
  /\ pendingRequest settled.1 = None
  /\ selectedFields settled.1 = selectedFields s
  /\ step settled.1 = step s
  /\ emailColumn settled.1 = emailColumn s
  /\ customField settled.1 = customField s
  /\ showManualAdd settled.1 = showManualAdd s
  /\ showAllRows settled.1 = showAllRows s
  /\ showEmailDropdown settled.1 = showEmailDropdown s
  /\ (settled.2 = []
      /\ showNaturalLanguage settled.1 = false
      /\ naturalLanguageInput settled.1 = ""
      \/ settled.2 = [ConsoleError "Error generating fields:";
                      ToastError "Failed to generate fields. Please try again."]
         /\ suggestedFields settled.1 = suggestedFields s
         /\ showNaturalLanguage settled.1 = showNaturalLanguage s
         /\ naturalLanguageInput settled.1 = naturalLanguageInput s).
Proof.
  intros settled. subst settled. unfold handleGenerateFields_resume.
  destruct (convertResponse generateVariableName selected outcome);
    unfold_all; simpl; split_and!; try done; [left | right]; done.
Qed.

(** X8. Two descriptors of one response that share a display name are
    converted under the same identifier, so only one of them can be
    selected: after both cards are accepted, the first field is in the
    selected list, the second is not, and no card is left. *)
Theorem same_display_name_is_accepted_once
    (selected : list EnrichmentField) (d1 d2 : FieldDescriptor) (s : State) :
  apiDisplayName d1 = apiDisplayName d2 ->
  let f1 := convertField generateVariableName selected d1 in
  let f2 := convertField generateVariableName selected d2 in
  suggestedFields s = [f1; f2] ->
  (List.length (selectedFields s) < 10)%nat ->
  name f1 ∉ names (selectedFields s) ->
  let first := (onAcceptClick s 0 f1 s).1 in
  let second := (onAcceptClick first 0 f2 first).1 in
  name f1 = name f2
  /\ suggestedFields first = [f2]
  /\ selectedFields first = selectedFields s ++ [f1]
  /\ suggestedFields second = []
  /\ selectedFields second = selectedFields s ++ [f1].
Proof.
  intros Hsame f1 f2 Hcards Hroom Hfresh first second.
  assert (Hname : name f1 = name f2).
  { subst f1 f2. unfold convertField. simpl. by rewrite Hsame. }
  assert (Hfirst : first = (setSuggestedFields [f2]
                              (setSelectedFields (selectedFields s ++ [f1]) s).1).1).
  { subst first. rewrite onAcceptClick_eq, handleAddField_fresh by done.
    rewrite Hcards. done. }
  split; [done|]. rewrite Hfirst. split; [done|]. split; [done|].
  subst second. rewrite Hfirst, onAcceptClick_eq.
  set (s1 := (setSuggestedFields [f2] _).1).
  assert (Hsel1 : selectedFields s1 = selectedFields s ++ [f1]) by done.
  assert (Hin : name f2 ∈ names (selectedFields s1)).
  { rewrite Hsel1, <- Hname. unfold names. rewrite map_app. simpl.
    apply elem_of_app. right. by apply list_elem_of_singleton. }
  destruct (Nat.leb_spec 10 (List.length (selectedFields s1))) as [Hfull|Hless].
  - rewrite handleAddField_full by done. done.
  - rewrite handleAddField_duplicate by done. done.
Qed.

(** X9. Navigation between the two steps.  "Next" does nothing while no
    email column is chosen; once one is chosen it moves to step 2 without
    touching anything else, and "Back" from there returns the very state
    "Next" started from.  On step 2 nothing but "Back" changes the step,
    and "Back" keeps the email column, the selected fields and the
    suggestions. *)
Theorem wizard_navigation (s : State) :
  (step s = Step1 -> emailColumn s = "" -> dispatch s ClickNext = (s, []))
  /\ (step s = Step1 -> emailColumn s <> "" ->
      let advanced := dispatch s ClickNext in
      advanced = ((setStep Step2 s).1, [])
      /\ dispatch advanced.1 ClickBack = (s, []))
  /\ (step s = Step2 ->
      forall e, e <> ClickBack -> step (dispatch s e).1 = Step2)
  /\ (step s = Step2 -> dispatch s ClickBack = ((setStep Step1 s).1, [])).
Proof.
  split_and!.
  - intros Hstep Hcol. unfold View.dispatch, View.available, nextDisabled.
    rewrite Hstep. apply truthyStr_false in Hcol. by rewrite Hcol.
  - intros Hstep Hcol advanced.
    assert (Hadv : advanced = ((setStep Step2 s).1, [])).
    { subst advanced. unfold View.dispatch, View.available, nextDisabled.
      rewrite Hstep. apply truthyStr_true in Hcol. by rewrite Hcol. }
    split; [done|]. rewrite Hadv. unfold View.dispatch, setStep. simpl.
    f_equal. destruct s. simpl in *. by subst.
  - intros Hstep e Hne. destruct e; crunch; congruence.
  - intros Hstep. unfold View.dispatch, View.available. by rewrite Hstep.
Qed.

Lemma dispatch_readyToStart (s : State) (e : Event) :
  "" ∉ columns -> readyToStart s -> readyToStart (dispatch s e).1.
Proof.
  intros Hcols [Hwf Hemail]. split.
  - by apply dispatch_wellFormed.
  - assert (Hvalue : forall value,
               bool_decide (value ∈ columns) = true -> value <> "").
    { intros value Hin ->. by apply bool_decide_eq_true in Hin. }
    clear Hwf. destruct e; crunch; try (by auto); try congruence; intros _.
    + match goal with
      | Hc : Js.truthyStr ?c && _ = true |- ?c <> "" =>
          apply andb_true_iff in Hc as [Hc _]; by apply truthyStr_true
      end.
    + match goal with
      | Hin : bool_decide (_ ∈ columns) && _ = true |- _ =>
          apply andb_true_iff in Hin as [Hin _]; by apply Hvalue
      end.
    + match goal with
      | Hn : negb (negb (Js.truthyStr ?c)) = true |- ?c <> "" =>
          rewrite negb_involutive in Hn; by apply truthyStr_true
      end.
Qed.

Lemma start_only_from_button (s : State) (e : Event)
    (col : string) (fields : list EnrichmentField) :
  OnStartEnrichment col fields ∈ (dispatch s e).2 ->
  step s = Step2 /\ col = emailColumn s /\ fields = selectedFields s /\ fields <> [].
Proof.
  intros H. destruct e; crunch; try no_such_effect H.
  apply elem_of_cons in H as [H|H]; [|by apply elem_of_nil in H].
  injection H as -> ->. split_and!; try done.
  intros Hnil. rewrite Hnil in *. done.
Qed.

Lemma run_effect_origin (inv : State -> Prop) (eff : Effect) :
  (forall s e, inv s -> inv (dispatch s e).1) ->
  forall (events : list Event) (s : State),
    inv s -> eff ∈ (run s events).2 ->
    exists s' e, inv s' /\ eff ∈ (dispatch s' e).2.
Proof.
  intros Hpres events. induction events as [|e events IH]; intros s Hs Hin; simpl in Hin.
  - by apply elem_of_nil in Hin.
  - pose proof (Hpres s e Hs) as Hs1.
    destruct (dispatch s e) as [s1 out1] eqn:Hd.
    destruct (run s1 events) as [s2 out2] eqn:Hr. simpl in *.
    apply elem_of_app in Hin as [Hin|Hin].
    + exists s, e. by rewrite Hd.
    + apply (IH s1 Hs1). by rewrite Hr.
Qed.

(** X10. What the caller of the component receives.  In any session, every
    call of [onStartEnrichment] passes a list of at least one and at most
    ten fields with pairwise distinct names, and, provided no column of the
    table has the empty name, a non-empty email column. *)
Theorem enrichment_starts_with_valid_configuration
    (events : list Event) (col : string) (fields : list EnrichmentField) :
  OnStartEnrichment col fields ∈ (run initialState events).2 ->
  fields <> []
  /\ (List.length fields <= 10)%nat
  /\ NoDup (names fields)
  /\ ("" ∉ columns -> col <> "").
Proof.
  intros Hcall.
  assert (Hfields : fields <> [] /\ wellFormed fields).
  { destruct (run_effect_origin (fun s => wellFormed (selectedFields s)) _
                (dispatch_wellFormed generateVariableName detectEmailColumn rows columns)
                events initialState defaultSelectedFields_wellFormed Hcall)
      as (s & e & Hwf & Hin).
    apply start_only_from_button in Hin as (_ & _ & -> & Hne). done. }
  destruct Hfields as (Hne & Hlen & Hnd). split_and!; try done.
  intros Hcols.
  assert (Hinit : readyToStart initialState).
  { split; [apply defaultSelectedFields_wellFormed | done]. }
  destruct (run_effect_origin readyToStart (OnStartEnrichment col fields)
              (fun s e => dispatch_readyToStart s e Hcols)
              events initialState Hinit Hcall) as (s & e & [_ Hready] & Hin).
  apply start_only_from_button in Hin as (Hstep & -> & _). by apply Hready.
Qed.

(** X11. The email dropdown closes only on step 2.  On step 1 the handler
    of the dropdown resets [showEmailDropdownStep1], a cell nothing reads
    and nothing ever sets, so once "Change" has opened the dropdown no
    event on step 1 closes it and the "Change" button does not come back;
    on step 2 choosing a column closes it. *)
Theorem email_dropdown_closes_on_step_two_only :
  (forall events : list Event,
      showEmailDropdownStep1 (run initialState events).1 = false)
  /\ (forall (s : State) (e : Event),
         step s = Step1 -> showEmailDropdown s = true ->
         showEmailDropdown (dispatch s e).1 = true
         /\ dispatch s ClickChange = (s, []))
  /\ (forall (s : State) (value : string),
         step s = Step2 -> showEmailDropdown s = true -> value ∈ columns ->
         let chosen := dispatch s (ChooseEmailColumn value) in
         emailColumn chosen.1 = value
         /\ showEmailDropdown chosen.1 = false
         /\ chosen.2 = []).
Proof.
  split_and!.
  - intros events.
    assert (H : forall s, showEmailDropdownStep1 s = false ->
                          showEmailDropdownStep1 (run s events).1 = false).
    { induction events as [|e events IH]; intros s Hs; simpl; [done|].
      assert (Hs1 : showEmailDropdownStep1 (dispatch s e).1 = false)
        by (destruct e; crunch; done).
      destruct (dispatch s e) as [s1 out1]. specialize (IH s1 Hs1).
      by destruct (run s1 events) as [s2 out2]. }
    by apply H.
  - intros s e Hstep Hopen. split.
    + destruct e; crunch; congruence.
    + unfold View.dispatch, View.available. by rewrite Hopen.
  - intros s value Hstep Hopen Hin chosen. subst chosen.
    unfold View.dispatch, View.available, handlerOf, onEmailColumnChange.
    rewrite Hstep, Hopen, bool_decide_eq_true_2 by done. done.
Qed.

(** X12. The copy button of an email cell never changes the state.  What
    it would copy is the trimmed cell: it has no white space at either
    end and is the text the cell displays, or is empty, exactly when the
    cell is missing or holds white space only, and then the button does
    nothing.  Otherwise the button calls the clipboard with that text, and
    the confirmation toast follows only when the write succeeds: a
    rejected write shows nothing, and without a clipboard nothing is
    written. *)
Theorem copy_writes_the_trimmed_email
    (s : State) (row : CSVRow) (email : string) (clipboard : ClipboardOutcome) :
  emailOfCell row (emailColumn s) = Returned email ->
  let copied := onCopyClick s email clipboard s in
  copied.1 = s
  /\ Js.trim email = email
  /\ startsWithWhiteSpace email = false
  /\ endsWithWhiteSpace email = false
  /\ emailCellText row (emailColumn s)
     = Returned (if Js.truthyStr email then email else "-")
  /\ (forall value, row !! emailColumn s = Some value ->
                    (email = "" <-> isBlank value = true))
  /\ (row !! emailColumn s = None -> email = "")
  /\ (email = "" -> copied.2 = [])
  /\ (email <> "" ->
      copied.2 = match clipboard with
                 | ClipboardWritten =>
                     [ClipboardWrite email; ToastSuccess "Email copied to clipboard"]
                 | ClipboardRejected => [ClipboardWrite email]
                 | ClipboardUnavailable => []
                 end).
Proof.
  intros Hemail copied. subst copied.
  assert (Htrimmed : exists value, email = Js.trim value
                                   /\ (forall v, row !! emailColumn s = Some v -> v = value)
                                   /\ (row !! emailColumn s = None -> value = "")).
  { unfold emailOfCell, readCell in Hemail.
    destruct (row !! emailColumn s) as [v|].
    - exists v. split; [congruence|]. split; [by intros ? [= ->] | done].
    - destruct (Js.includes Js.objectPrototypeKeys (emailColumn s)); [done|].
      exists "". split; [congruence|]. by split. }
  destruct Htrimmed as (value & -> & Hown & Hnone).
  destruct (trim_clean_ends value) as [Hstart Hend].
  unfold onCopyClick, emailCellText. rewrite Hemail. simpl.
  split_and!; try done.
  - by destruct (Js.truthyStr (Js.trim value)), clipboard.
  - apply trim_idempotent.
  - intros v Hv. rewrite (Hown v Hv). apply trim_empty.
  - intros H. by rewrite (Hnone H).
  - intros H. apply truthyStr_false in H. by rewrite H.
  - intros H. apply truthyStr_true in H. rewrite H. by destruct clipboard.
Qed.

(** X13. A valid manual entry always resets the form and closes the panel,
    whether or not the field got in: with ten fields selected the entry is
    lost with the capacity toast; when the helper returns a name that is
    already selected the entry is lost silently; otherwise the field is
    appended, not required, under the helper's name, with the display
    name, description and type of the form. *)
Theorem manual_entry_resets_the_form (s : State) :
  customName (customField s) <> "" ->
  customDescription (customField s) <> "" ->
  let added := handleAddCustomField generateVariableName s s in
  let id := generateVariableName (customName (customField s))
                                 (names (selectedFields s)) in
  customField added.1 = mkCustom "" "" "string"
  /\ showManualAdd added.1 = false
  /\ ((10 <= List.length (selectedFields s))%nat ->
      selectedFields added.1 = selectedFields s
      /\ added.2 = [ToastError "Maximum 10 fields allowed"])
  /\ ((List.length (selectedFields s) < 10)%nat -> id ∈ names (selectedFields s) ->
      selectedFields added.1 = selectedFields s /\ added.2 = [])
  /\ ((List.length (selectedFields s) < 10)%nat -> id ∉ names (selectedFields s) ->
      selectedFields added.1
      = selectedFields s
          ++ [mkField id (customName (customField s))
                      (customDescription (customField s))
                      (customType (customField s)) false]
      /\ added.2 = []).
Proof.
  intros Hname Hdesc added id. subst added. unfold handleAddCustomField.
  apply truthyStr_true in Hname as ->. apply truthyStr_true in Hdesc as ->.
  simpl. fold id. unfold andThen.
  set (field := mkField id _ _ _ _).
  split_and!.
  - by destruct (handleAddField s field s).
  - by destruct (handleAddField s field s).
  - intros Hfull. by rewrite handleAddField_full.
  - intros Hroom Hin. by rewrite handleAddField_duplicate.
  - intros Hroom Hout. by rewrite handleAddField_fresh.
Qed.

(** X14. The skip check reads the email cell only: whatever the host's
    lowercasing, writing any other column of the row does not change its
    outcome.  When the banner is shown, the number it reports is not zero
    and not more than the number of rows. *)
Theorem skip_check_reads_the_email_cell_only :
  (forall (col other : string) (row : CSVRow) (w : string),
      other <> col ->
      isSkippable toLowerCase col (<[other := w]> row)
      = isSkippable toLowerCase col row)
  /\ (forall (s : State) (k : nat),
         skipWarning toLowerCase rows s = Returned (Some k) ->
         (0 < k <= List.length rows)%nat).
Proof.
  split.
  - intros col other row w Hne. unfold isSkippable, readCell.
    by rewrite lookup_insert_ne.
  - intros s k. unfold skipWarning, skippableEmails.
    destruct (step s); [|done]. destruct (Js.truthyStr (emailColumn s)); [|done].
    destruct (filterTry (isSkippable toLowerCase (emailColumn s)) rows)
      as [kept|] eqn:Hkept; [|done].
    apply filterTry_length in Hkept. simpl.
    destruct (Nat.eqb_spec (List.length kept) 0); [done|].
    intros [= <-]. lia.
Qed.

(** X15. How a cell of the email column is rendered.  A cell that holds
    white space only is styled empty and shows "-"; any other cell shows
    its trimmed text, styled valid when the pattern accepts that text and
    invalid when it does not.  A row without the cell shows the empty style
    and "-" when the column name is not one that plain objects inherit; for
    an inherited name the render throws. *)
Theorem email_cell_rendering (row : CSVRow) (col : string) :
  (forall value, row !! col = Some value ->
     emailCellText row col
     = Returned (if isBlank value then "-" else Js.trim value)
     /\ emailCellClass EMAIL_REGEX_test row col
        = Returned (if isBlank value then EmailEmpty
                    else if EMAIL_REGEX_test (Js.trim value) then EmailValid
                    else EmailInvalid))
  /\ (row !! col = None -> col ∉ Js.objectPrototypeKeys ->
      emailCellText row col = Returned "-"
      /\ emailCellClass EMAIL_REGEX_test row col = Returned EmailEmpty)
  /\ (row !! col = None -> col ∈ Js.objectPrototypeKeys ->
      exists message,
        emailCellText row col = Thrown message
        /\ emailCellClass EMAIL_REGEX_test row col = Thrown message).
Proof.
  unfold emailCellText, emailCellClass, emailOfCell, readCell. split_and!.
  - intros value ->. simpl. rewrite truthy_trim.
    by destruct (isBlank value); simpl.
  - intros -> Hkey.
    destruct (Js.includes Js.objectPrototypeKeys col) eqn:E;
      [by apply includes_true in E | done].
  - intros -> Hkey. apply includes_true in Hkey. rewrite Hkey. by eexists.
Qed.

(** X16. The capacity toast is shown only when ten fields are selected,
    and only by a manual entry or by accepting a suggestion: the preset
    buttons are disabled at that point and never show it.  The event that
    shows it leaves the selected list as it is. *)
Theorem capacity_toast_only_when_full (events : list Event) (e : Event) :
  let s := (run initialState events).1 in
  ToastError "Maximum 10 fields allowed" ∈ (dispatch s e).2 ->
  List.length (selectedFields s) = 10%nat
  /\ (e = ClickAddField \/ exists idx, e = ClickAccept idx)
  /\ selectedFields (dispatch s e).1 = selectedFields s.
Proof.
  intros s Htoast.
  assert (Hcap : (List.length (selectedFields s) <= 10)%nat).
  { apply (run_wellFormed generateVariableName detectEmailColumn rows columns
             events initialState defaultSelectedFields_wellFormed). }
  clearbody s.
  destruct e; crunch; try no_such_effect Htoast;
    repeat match goal with
           | H : (10 <=? _)%nat = true |- _ => apply Nat.leb_le in H
           end;
    split_and!; try done; try lia; eauto.
Qed.

End FurtherProperties.

(** ** The further properties on concrete inputs *)


Lemma remove_field_drops_the_name_witness :
  "industry" ∈ names (selectedFields initialState)
  /\ S (List.length (selectedFields (handleRemoveField initialState "industry"
                                       initialState).1))
     = List.length (selectedFields initialState)
  /\ handleRemoveField initialState "revenue" initialState = (initialState, []).
Proof.
  destruct (remove_field_drops_the_name initialState "industry")
    as (_ & _ & _ & _ & _ & Hone).
  destruct (remove_field_drops_the_name initialState "revenue")
    as (Hquiet & _ & _ & _ & Hsame & _).
  assert (Hin : "industry" ∈ names (selectedFields initialState))
    by (vm_compute; by repeat constructor).
  split; [exact Hin|]. split.
  - apply Hone; [apply defaultSelectedFields_wellFormed | exact Hin].
  - assert (Hout : "revenue" ∉ names (selectedFields initialState)).
    { intros H. vm_compute in H.
      repeat (apply elem_of_cons in H as [H|H]; [discriminate|]).
      by apply elem_of_nil in H. }
    specialize (Hsame Hout).
    destruct (handleRemoveField initialState "revenue" initialState) as [s1 out1].
    simpl in *. by subst.
Defined.

Lemma preset_toggle_round_trip_witness :
  step (setStep Step2 initialState).1 = Step2
  /\ demoDispatch (demoDispatch (setStep Step2 initialState).1 (ClickPreset 3)).1
       (ClickPreset 3)
     = ((setStep Step2 initialState).1, []).
Proof.
  split; [reflexivity|].
  refine (proj2 (proj2 (preset_toggle_round_trip generateVariableName_spec demoDetect
                          demoRows demoColumns (setStep Step2 initialState).1 3
                          (mkField "employeeCount" "Employee Count"
                             "The number of employees at the company" "number" false)
                          eq_refl eq_refl _ _))).
  - intros H. vm_compute in H.
    repeat (apply elem_of_cons in H as [H|H]; [discriminate|]).
    by apply elem_of_nil in H.
  - vm_compute. lia.
Defined.

Lemma preview_shows_last_five_fields_witness :
  step fullState = Step2
  /\ moreFieldsLabel fullState = Some 5%nat
  /\ (5 + List.length (previewColumns fullState))%nat
     = List.length (selectedFields fullState).
Proof.
  assert (Hstep : step fullState = Step2) by (by vm_compute).
  assert (Hlabel : moreFieldsLabel fullState = Some 5%nat) by (by vm_compute).
  destruct (preview_shows_last_five_fields fullState) as (_ & _ & _ & Hstep2).
  destruct (Hstep2 Hstep) as (Hmore & _ & _).
  destruct (Hmore 5%nat Hlabel) as (_ & Hsum & _).
  split; [exact Hstep|]. split; [exact Hlabel | exact Hsum].
Defined.

Lemma table_shows_three_rows_until_expanded_witness :
  moreRowsLabel fourRows initialState = Some 1%nat
  /\ (1 + List.length (displayRows fourRows initialState))%nat = List.length fourRows
  /\ displayRows fourRows
       (dispatch generateVariableName_spec demoDetect fourRows demoColumns
          initialState ClickShowMoreRows).1
     = fourRows.
Proof.
  assert (Hlabel : moreRowsLabel fourRows initialState = Some 1%nat) by reflexivity.
  destruct (table_shows_three_rows_until_expanded generateVariableName_spec
              demoDetect fourRows demoColumns initialState)
    as (_ & _ & _ & _ & Hmore).
  destruct (Hmore 1%nat Hlabel) as (_ & Hsum & Hall & _).
  split; [exact Hlabel|]. split; [exact Hsum | exact Hall].
Defined.

Lemma generate_ignores_blank_prompt_witness :
  isBlank (naturalLanguageInput
             (setNaturalLanguageInput (" " +:+ noBreakSpace) fullState).1) = true
  /\ handleGenerateFields (setNaturalLanguageInput (" " +:+ noBreakSpace) fullState).1
       (setNaturalLanguageInput (" " +:+ noBreakSpace) fullState).1
     = ((setNaturalLanguageInput (" " +:+ noBreakSpace) fullState).1, []).
Proof.
  split; [reflexivity|].
  apply (proj1 (generate_ignores_blank_prompt
                  (setNaturalLanguageInput (" " +:+ noBreakSpace) fullState).1)).
  reflexivity.
Defined.

Lemma no_second_request_while_generating_witness :
  is_Some (pendingRequest waitingState)
  /\ FetchGenerateFields "CEO name" ∉ (demoDispatch waitingState ClickGenerate).2.
Proof.
  assert (Hpending : is_Some (pendingRequest waitingState))
    by (vm_compute; eauto).
  split; [exact Hpending|].
  pose proof (no_second_request_while_generating generateVariableName_spec
                demoDetect demoRows demoColumns (fillToTen ++ askForCeo)) as H.
  cbv zeta in H. destruct H as [_ H].
  rewrite demoDispatch_eq. rewrite waitingState_eq in *.
  exact (H Hpending ClickGenerate "CEO name").
Defined.

Lemma same_display_name_is_accepted_once_witness :
  apiDisplayName ceoDescriptor = apiDisplayName secondCeoDescriptor
  /\ name (convertField generateVariableName_spec defaultSelectedFields ceoDescriptor)
     = name (convertField generateVariableName_spec defaultSelectedFields
               secondCeoDescriptor).
Proof.
  split; [reflexivity|].
  refine (proj1 (same_display_name_is_accepted_once generateVariableName_spec
                   defaultSelectedFields ceoDescriptor secondCeoDescriptor
                   (setSuggestedFields
                      [convertField generateVariableName_spec defaultSelectedFields
                         ceoDescriptor;
                       convertField generateVariableName_spec defaultSelectedFields
                         secondCeoDescriptor] initialState).1
                   eq_refl eq_refl _ _)).
  - simpl. change (List.length defaultSelectedFields) with 3%nat. lia.
  - apply generateVariableName_spec_neverCollides.
Defined.

Lemma wizard_navigation_witness :
  emailColumn (setEmailColumn "email" initialState).1 <> ""
  /\ demoDispatch (demoDispatch (setEmailColumn "email" initialState).1 ClickNext).1
       ClickBack
     = ((setEmailColumn "email" initialState).1, []).
Proof.
  assert (Hcol : emailColumn (setEmailColumn "email" initialState).1 <> "")
    by discriminate.
  split; [exact Hcol|].
  destruct (wizard_navigation generateVariableName_spec demoDetect demoRows
              demoColumns (setEmailColumn "email" initialState).1)
    as (_ & Hnext & _).
  exact (proj2 (Hnext eq_refl Hcol)).
Defined.

Lemma enrichment_starts_with_valid_configuration_witness :
  OnStartEnrichment "email" (take 3 PRESET_FIELDS)
    ∈ (demoRun initialState [PropsEffect; ClickNext; ClickStartEnrichment]).2
  /\ ("" ∉ demoColumns)
  /\ NoDup (names (take 3 PRESET_FIELDS))
  /\ "email" <> "".
Proof.
  assert (Hcall : OnStartEnrichment "email" (take 3 PRESET_FIELDS)
                    ∈ (demoRun initialState
                         [PropsEffect; ClickNext; ClickStartEnrichment]).2)
    by (vm_compute; by constructor).
  assert (Hcols : "" ∉ demoColumns).
  { intros H. apply elem_of_cons in H as [H|H]; [discriminate|].
    by apply elem_of_nil in H. }
  destruct (enrichment_starts_with_valid_configuration generateVariableName_spec
              demoDetect demoRows demoColumns _ _ _ Hcall)
    as (_ & _ & Hnd & Hcol).
  split; [exact Hcall|]. split; [exact Hcols|]. split; [exact Hnd | exact (Hcol Hcols)].
Defined.

Lemma email_dropdown_closes_on_step_two_only_witness :
  "email" ∈ demoColumns
  /\ showEmailDropdown
       (demoDispatch (setShowEmailDropdown true (setStep Step2 initialState).1).1
          (ChooseEmailColumn "email")).1 = false
  /\ showEmailDropdown
       (demoDispatch (setShowEmailDropdown true initialState).1
          (ChooseEmailColumn "email")).1 = true.
Proof.
  assert (Hin : "email" ∈ demoColumns) by (by constructor).
  destruct (email_dropdown_closes_on_step_two_only generateVariableName_spec
              demoDetect demoRows demoColumns)
    as (_ & Hone & Htwo).
  split; [exact Hin|]. split.
  - exact (proj1 (proj2 (Htwo (setShowEmailDropdown true (setStep Step2 initialState).1).1
                              "email" eq_refl eq_refl Hin))).
  - exact (proj1 (Hone (setShowEmailDropdown true initialState).1
                       (ChooseEmailColumn "email") eq_refl eq_refl)).
Defined.

Lemma copy_writes_the_trimmed_email_witness :
  emailOfCell paddedRow (emailColumn (setEmailColumn "email" initialState).1)
  = Returned "ann@acme.com"
  /\ (onCopyClick (setEmailColumn "email" initialState).1 "ann@acme.com"
        ClipboardRejected (setEmailColumn "email" initialState).1).2
     = [ClipboardWrite "ann@acme.com"]
  /\ (onCopyClick (setEmailColumn "email" initialState).1 "ann@acme.com"
        ClipboardWritten (setEmailColumn "email" initialState).1).2
     = [ClipboardWrite "ann@acme.com"; ToastSuccess "Email copied to clipboard"].
Proof.
  assert (Hcell : emailOfCell paddedRow
                    (emailColumn (setEmailColumn "email" initialState).1)
                  = Returned "ann@acme.com") by (by vm_compute).
  assert (Hne : "ann@acme.com" <> "") by discriminate.
  split; [exact Hcell|]. split.
  - destruct (copy_writes_the_trimmed_email (setEmailColumn "email" initialState).1
                paddedRow "ann@acme.com" ClipboardRejected Hcell)
      as (_ & _ & _ & _ & _ & _ & _ & _ & Hcopy).
    exact (Hcopy Hne).
  - destruct (copy_writes_the_trimmed_email (setEmailColumn "email" initialState).1
                paddedRow "ann@acme.com" ClipboardWritten Hcell)
      as (_ & _ & _ & _ & _ & _ & _ & _ & Hcopy).
    exact (Hcopy Hne).
Defined.

Lemma manual_entry_resets_the_form_witness :
  (10 <= List.length (selectedFields fullState))%nat
  /\ customField
       (handleAddCustomField generateVariableName_spec
          (setCustomField (mkCustom "Margin" "Gross margin" "number") fullState).1
          (setCustomField (mkCustom "Margin" "Gross margin" "number") fullState).1).1
     = mkCustom "" "" "string"
  /\ (handleAddCustomField generateVariableName_spec
        (setCustomField (mkCustom "Margin" "Gross margin" "number") fullState).1
        (setCustomField (mkCustom "Margin" "Gross margin" "number") fullState).1).2
     = [ToastError "Maximum 10 fields allowed"].
Proof.
  assert (Hfull : (10 <= List.length (selectedFields fullState))%nat)
    by (rewrite fullState_is_full; lia).
  assert (Hname : customName (mkCustom "Margin" "Gross margin" "number") <> "")
    by discriminate.
  assert (Hdesc : customDescription (mkCustom "Margin" "Gross margin" "number") <> "")
    by discriminate.
  destruct (manual_entry_resets_the_form generateVariableName_spec
              (setCustomField (mkCustom "Margin" "Gross margin" "number") fullState).1
              Hname Hdesc)
    as (Hform & _ & Hcap & _).
  split; [exact Hfull|]. split; [exact Hform|]. exact (proj2 (Hcap Hfull)).
Defined.

Lemma skip_check_reads_the_email_cell_only_witness :
  "name" <> "email"
  /\ isSkippable Js.asciiLowerCase "email" (<["name" := "Ann"]> paddedRow)
     = isSkippable Js.asciiLowerCase "email" paddedRow
  /\ skipWarning Js.asciiLowerCase demoRows (setEmailColumn "email" initialState).1
     = Returned (Some 1%nat)
  /\ (0 < 1 <= List.length demoRows)%nat.
Proof.
  assert (Hne : "name" <> "email") by discriminate.
  assert (Hone : skipWarning Js.asciiLowerCase demoRows
                   (setEmailColumn "email" initialState).1
                 = Returned (Some 1%nat)) by (by vm_compute).
  destruct (skip_check_reads_the_email_cell_only Js.asciiLowerCase demoRows)
    as (Hother & Hcount).
  split; [exact Hne|]. split; [exact (Hother "email" "name" paddedRow "Ann" Hne)|].
  split; [exact Hone | exact (Hcount _ _ Hone)].
Defined.

Lemma email_cell_rendering_witness :
  paddedRow !! "email"
  = Some (" " +:+ noBreakSpace +:+ "ann@acme.com" +:+ noBreakSpace
          +:+ String (ascii_of_nat 9) "")
  /\ emailCellText paddedRow "email" = Returned "ann@acme.com"
  /\ emailCellClass demoRegexTest paddedRow "email" = Returned EmailValid
  /\ emailCellText {[ "email" := noBreakSpace ]} "email" = Returned "-"
  /\ emailCellClass demoRegexTest ∅ "email" = Returned EmailEmpty.
Proof.
  assert (Hcell : paddedRow !! "email"
                  = Some (" " +:+ noBreakSpace +:+ "ann@acme.com" +:+ noBreakSpace
                          +:+ String (ascii_of_nat 9) "")) by (by vm_compute).
  assert (Hnbsp : ({[ "email" := noBreakSpace ]} : CSVRow) !! "email"
                  = Some noBreakSpace) by (by vm_compute).
  assert (Hkey : "email" ∉ Js.objectPrototypeKeys).
  { intros H. unfold Js.objectPrototypeKeys in H.
    repeat (apply elem_of_cons in H as [H|H]; [discriminate|]).
    by apply elem_of_nil in H. }
  destruct (email_cell_rendering demoRegexTest paddedRow "email") as (Hown & _ & _).
  destruct (email_cell_rendering demoRegexTest {[ "email" := noBreakSpace ]} "email")
    as (Hblank & _ & _).
  destruct (email_cell_rendering demoRegexTest ∅ "email") as (_ & Hmissing & _).
  destruct (Hown _ Hcell) as [Htext Hclass].
  split; [exact Hcell|]. split; [exact Htext|]. split; [exact Hclass|].
  split; [exact (proj1 (Hblank _ Hnbsp)) | exact (proj2 (Hmissing eq_refl Hkey))].
Defined.

Lemma capacity_toast_only_when_full_witness :
  ToastError "Maximum 10 fields allowed" ∈ (demoDispatch fullState (ClickAccept 0)).2
  /\ List.length (selectedFields fullState) = 10%nat
  /\ selectedFields (demoDispatch fullState (ClickAccept 0)).1 = selectedFields fullState.
Proof.
  assert (Htoast : ToastError "Maximum 10 fields allowed"
                     ∈ (demoDispatch fullState (ClickAccept 0)).2)
    by (vm_compute; by constructor).
  split; [exact Htoast|].
  pose proof (capacity_toast_only_when_full generateVariableName_spec demoDetect
                demoRows demoColumns fullSession (ClickAccept 0)) as H.
  cbv zeta in H. rewrite demoDispatch_eq. rewrite fullState_eq in *.
  rewrite demoDispatch_eq in Htoast.
  destruct (H Htoast) as (Hlen & _ & Hsame).
  split; [exact Hlen | exact Hsame].
Defined.
